(** * icloudpd.authentication: username/password and two-step authentication

    A shallow embedding of [src/icloudpd/authentication.py].  The module
    talks to two collaborators it does not implement: the pyicloud session
    client and the human behind [click.prompt].  Both are taken as an
    interface over a hidden world state; every call the module makes is
    also appended to a trace, so that statements about how often and in
    which order the collaborators are used can be written down. *)

From stdpp Require Import base option list gmap strings pretty.
From Stdlib Require Import ZArith Lia.

Open Scope string_scope.
Open Scope list_scope.
Open Scope Z_scope.

(** ** Python values and exceptions *)

(** A positional argument of the session constructor: [None] or a [str]. *)
Inductive PyVal :=
  | PyNone
  | PyStr (s : string).

(** The exceptions that travel through this module.  [OtherError] stands
    for every failure of the session client that is not the dedicated
    "no stored password" class (rejected login, transport errors, ...). *)
Inductive Exn :=
  | PyiCloudNoStoredPasswordAvailableException
  | TwoStepAuthRequiredError (msg : string)
  | SystemExit (code : Z)
  | IndexError
  | OtherError (name msg : string).

#[global] Instance Exn_eq_dec : EqDecision Exn.
Proof. solve_decision. Defined.

(** A trusted device is a Python dict with string keys. *)
Abbreviation Device := (gmap string string).

(** [str(None)] as produced by the [%s] conversion. *)
Definition py_str (v : option string) : string :=
  match v with
  | Some s => s
  | None => "None"
  end.

(** [l[i]] on a Python list: negative indices count from the end, anything
    outside [-len, len) raises [IndexError] (here [None]). *)
Definition py_getitem {A : Type} (l : list A) (i : Z) : option A :=
  let n := Z.of_nat (length l) in
  if 0 <=? i then l !! Z.to_nat i
  else if - n <=? i then l !! Z.to_nat (n + i)
  else None.

(** ** Calls and their trace *)

(** One call of [pyicloud.PyiCloudService(...)]: the positional arguments
    in the order written at the call site, and the three keywords. *)
Record OpenArgs := {
  positional : list PyVal;
  kw_cookie_directory : option string;
  kw_client_id : option string;
  kw_china_mainland : bool;
}.

Inductive LogLevel := DEBUG | INFO | ERROR.

Inductive Event :=
  | EvLog (level : LogLevel) (msg : string)
  | EvPrint (line : string)
  | EvOpenSession (args : OpenArgs)
  | EvPrompt (text : string) (hide_input : bool)
  | EvPromptInt (text : string) (dflt lo hi : Z)
  | EvRequires2fa
  | EvRequires2sa
  | EvTrustedDevices
  | EvSendCode (device : Device)
  | EvValidateCode (device : Device) (code : string)
  | EvValidate2fa (code : string).

Definition is_prompt (e : Event) : bool :=
  match e with
  | EvPrompt _ _ | EvPromptInt _ _ _ _ => true
  | _ => false
  end.

Definition is_open (e : Event) : bool :=
  match e with
  | EvOpenSession _ => true
  | _ => false
  end.

(** Operations of the session client that go to the server. *)
Definition is_network (e : Event) : bool :=
  match e with
  | EvOpenSession _ | EvTrustedDevices | EvSendCode _
  | EvValidateCode _ _ | EvValidate2fa _ => true
  | _ => false
  end.

Definition is_send (e : Event) : bool :=
  match e with
  | EvSendCode _ => true
  | _ => false
  end.

Definition is_validation (e : Event) : bool :=
  match e with
  | EvValidateCode _ _ | EvValidate2fa _ => true
  | _ => false
  end.

(** Everything that belongs to two-step (2SA) handling: the facet read,
    the device list, the menu, the selection prompt, delivery and the
    device-bound validation. *)
Definition is_legacy (e : Event) : bool :=
  match e with
  | EvRequires2sa | EvTrustedDevices | EvPrint _ | EvPromptInt _ _ _ _
  | EvSendCode _ | EvValidateCode _ _ => true
  | _ => false
  end.

(** Everything that belongs to two-factor (2FA) resolution proper. *)
Definition is_strong_flow (e : Event) : bool :=
  match e with
  | EvValidate2fa _ => true
  | _ => false
  end.

Definition count (p : Event → bool) (t : list Event) : nat :=
  length (filter (λ e, p e = true) t).

(** ** Collaborators *)

(** The session client (pyicloud) and the human input channel (click), as
    transformers of a world state [W].  Per the collaborator contract only
    opening a session can fail with an error kind; the two [requires_*]
    facets and the device list are reads; delivery and validation answer
    with a success flag; prompts block until they have an answer. *)
Record Collaborators (W Session : Type) := {
  PyiCloudService : OpenArgs → W → (Exn + Session) * W;
  requires_2fa : Session → W → bool;
  requires_2sa : Session → W → bool;
  trusted_devices : Session → W → list Device;
  send_verification_code : Session → Device → W → bool * W;
  validate_verification_code : Session → Device → string → W → bool * W;
  validate_2fa_code : Session → string → W → bool * W;
  click_prompt : string → bool → W → string * W;
  click_prompt_int : string → Z → Z → Z → W → Z * W;
}.
Arguments PyiCloudService {W Session}.
Arguments requires_2fa {W Session}.
Arguments requires_2sa {W Session}.
Arguments trusted_devices {W Session}.
Arguments send_verification_code {W Session}.
Arguments validate_verification_code {W Session}.
Arguments validate_2fa_code {W Session}.
Arguments click_prompt {W Session}.
Arguments click_prompt_int {W Session}.

(** ** The effect monad *)

Record St (W : Type) := mkSt { world : W; trace : list Event }.
Arguments mkSt {W}.
Arguments world {W}.
Arguments trace {W}.

(** A computation returns, raises, or (only for the unbounded [while True]
    of the bootstrap) is cut off when the iteration budget is used up. *)
Inductive Outcome (A : Type) :=
  | Returned (a : A)
  | Raised (e : Exn)
  | OutOfFuel.
Arguments Returned {A}.
Arguments Raised {A}.
Arguments OutOfFuel {A}.

Definition M (W A : Type) : Type := St W → Outcome A * St W.

Definition ret {W A} (a : A) : M W A := λ st, (Returned a, st).

Definition bind {W A B} (m : M W A) (k : A → M W B) : M W B :=
  λ st,
    match m st with
    | (Returned a, st') => k a st'
    | (Raised e, st') => (Raised e, st')
    | (OutOfFuel, st') => (OutOfFuel, st')
    end.

Definition raise {W A} (e : Exn) : M W A := λ st, (Raised e, st).

Declare Scope py_scope.
Delimit Scope py_scope with py.
Notation "'let*' x ':=' m 'in' k" := (bind m (λ x, k))
  (at level 10, x name, m at level 100, k at level 200) : py_scope.
Notation "m ';;;' k" := (bind m (λ _, k))
  (at level 100, k at level 200, right associativity) : py_scope.

Definition emit {W} (e : Event) : M W unit :=
  λ st, (Returned tt, mkSt (world st) (trace st ++ [e])).

(** A call that moves the world and answers, logged as [e]. *)
Definition call {W A} (e : Event) (f : W → A * W) : M W A :=
  λ st,
    let '(a, w) := f (world st) in
    (Returned a, mkSt w (trace st ++ [e])).

(** A read of the world, logged as [e]. *)
Definition read {W A} (e : Event) (f : W → A) : M W A :=
  λ st, (Returned (f (world st)), mkSt (world st) (trace st ++ [e])).

(** [sys.exit(code)] raises [SystemExit]. *)
Definition sys_exit {W A} (code : Z) : M W A := raise (SystemExit code).

(** [logger = setup_logger()]: the logger is a sink for leveled messages. *)
Inductive Logger := icloudpd_logger.

Definition setup_logger {W} : M W Logger := ret icloudpd_logger.
Definition logger_debug {W} (_ : Logger) (msg : string) : M W unit :=
  emit (EvLog DEBUG msg).
Definition logger_info {W} (_ : Logger) (msg : string) : M W unit :=
  emit (EvLog INFO msg).
Definition logger_error {W} (_ : Logger) (msg : string) : M W unit :=
  emit (EvLog ERROR msg).
Definition py_print {W} (line : string) : M W unit := emit (EvPrint line).

(** The newline of the two guidance notices. *)
Definition nl : string := String (Ascii.ascii_of_nat 10) "".

Definition msg_2fa_required : string :=
  "Two-factor authentication is required!".
Definition msg_2sa_required_error : string :=
  "Two-step/two-factor authentication is required!".
Definition msg_2sa_required : string :=
  "Two-step authentication is required!".
Definition msg_verify_failed : string :=
  "Failed to verify two-factor authentication code".
Definition msg_send_failed : string :=
  "Failed to send two-factor authentication code".
Definition msg_code_prompt : string :=
  "Please enter two-factor authentication code".
Definition msg_2fa_done : string :=
  "Great, you're all set up. The script can now be run without "
  +:+ "user interaction until 2FA expires." +:+ nl
  +:+ "You can set up email notifications for when "
  +:+ "the two-factor authentication expires." +:+ nl
  +:+ "(Use --help to view information about SMTP options.)".
Definition msg_2sa_done : string :=
  "Great, you're all set up. The script can now be run without "
  +:+ "user interaction until 2SA expires." +:+ nl
  +:+ "You can set up email notifications for when "
  +:+ "the two-step authentication expires." +:+ nl
  +:+ "(Use --help to view information about SMTP options.)".

(** ** The module *)

Section Authentication.
Context {W Session : Type} (env : Collaborators W Session).

Local Open Scope py_scope.

(** Wrappers that log the call and ask the collaborator. *)
Definition open_session (args : OpenArgs) : M W Session :=
  λ st,
    match PyiCloudService env args (world st) with
    | (inr icloud, w) => (Returned icloud, mkSt w (trace st ++ [EvOpenSession args]))
    | (inl e, w) => (Raised e, mkSt w (trace st ++ [EvOpenSession args]))
    end.

Definition prompt (text : string) (hide_input : bool) : M W string :=
  call (EvPrompt text hide_input) (click_prompt env text hide_input).

Definition prompt_int (text : string) (dflt lo hi : Z) : M W Z :=
  call (EvPromptInt text dflt lo hi) (click_prompt_int env text dflt lo hi).

(** [request_2fa(icloud, logger)] *)
Definition request_2fa (icloud : Session) (logger : Logger) : M W unit :=
  let* code := prompt msg_code_prompt false in
  let* ok := call (EvValidate2fa code) (validate_2fa_code env icloud code) in
  (if negb ok
   then (logger_error logger msg_verify_failed;;; sys_exit 1)
   else ret tt);;;
  logger_info logger msg_2fa_done.

(** The text shown for one device:
    [device.get("deviceName", "SMS to %s" % device.get("phoneNumber"))]. *)
Definition device_label (device : Device) : string :=
  default ("SMS to " +:+ py_str (device !! "phoneNumber"))
          (device !! "deviceName").

(** [for i, device in enumerate(devices): print("  %s: %s" % (i, ...))],
    entered with the running index [i]. *)
Fixpoint print_devices (i : nat) (devices : list Device) : M W unit :=
  match devices with
  | [] => ret tt
  | device :: rest =>
      py_print ("  " +:+ pretty i +:+ ": " +:+ device_label device);;;
      print_devices (S i) rest
  end.

(** [request_2sa(icloud, logger)] *)
Definition request_2sa (icloud : Session) (logger : Logger) : M W unit :=
  let* devices := read EvTrustedDevices (trusted_devices env icloud) in
  let devices_count := length devices in
  let* device_index :=
    (if (0 <? devices_count)%nat
     then
       print_devices 0 devices;;;
       py_print ("  " +:+ pretty devices_count
                 +:+ ": Enter two-factor authentication code");;;
       prompt_int "Please choose an option:" 0 0 (Z.of_nat devices_count)
     else ret 0) in
  let* device :=
    (if device_index =? Z.of_nat devices_count
     then ret (∅ : Device)
     else
       let* device :=
         match py_getitem devices device_index with
         | Some device => ret device
         | None => raise IndexError
         end in
       let* ok := call (EvSendCode device)
                       (send_verification_code env icloud device) in
       (if negb ok
        then (logger_error logger msg_send_failed;;; sys_exit 1)
        else ret tt);;;
       ret device) in
  let* code := prompt msg_code_prompt false in
  let* ok := call (EvValidateCode device code)
                  (validate_verification_code env icloud device code) in
  (if negb ok
   then (logger_error logger msg_verify_failed;;; sys_exit 1)
   else ret tt);;;
  logger_info logger msg_2sa_done.

Section Authenticate.
(** The arguments of [authenticator(domain)] and [authenticate_(...)]. *)
Variables (domain username : string) (cookie_directory : option string)
          (raise_error_on_2sa : bool) (client_id : option string)
          (china_mainland : bool).

(** The call inside [try]: domain, username and password by position. *)
Definition try_args (password : PyVal) : OpenArgs :=
  {| positional := [PyStr domain; PyStr username; password];
     kw_cookie_directory := cookie_directory;
     kw_client_id := client_id;
     kw_china_mainland := china_mainland |}.

(** The call inside [except]: username and password by position. *)
Definition except_args (password : string) : OpenArgs :=
  {| positional := [PyStr username; PyStr password];
     kw_cookie_directory := cookie_directory;
     kw_client_id := client_id;
     kw_china_mainland := china_mainland |}.

(** Lines 28-47, the [while True] around session establishment.  One
    unit of fuel is one pass through the loop body.  [break] leaves
    with the session of the [try] call; the handler ends without a
    [break], so after it the loop body runs again with the password
    that was typed in.  An exception other than the handled class, and
    any exception raised inside the handler, leaves the function. *)
Fixpoint bootstrap (fuel : nat) (password : PyVal) : M W Session :=
  match fuel with
  | O => λ st, (OutOfFuel, st)
  | S fuel' =>
      λ st,
        match open_session (try_args password) st with
        | (Returned icloud, st1) => (Returned icloud, st1)
        | (Raised PyiCloudNoStoredPasswordAvailableException, st1) =>
            (let* password' := prompt "iCloud Password" true in
             let* icloud := open_session (except_args password') in
             bootstrap fuel' (PyStr password')) st1
        | (Raised e, st1) => (Raised e, st1)
        | (OutOfFuel, st1) => (OutOfFuel, st1)
        end
  end.

(** Lines 49-63, what is done with the session once it is open. *)
Definition completeAuthentication (icloud : Session) (logger : Logger)
  : M W Session :=
  let* r2fa := read EvRequires2fa (requires_2fa env icloud) in
  (if r2fa : bool
   then
     (if raise_error_on_2sa
      then raise (TwoStepAuthRequiredError msg_2fa_required)
      else ret tt);;;
     logger_info logger msg_2fa_required;;;
     request_2fa icloud logger
   else
     let* r2sa := read EvRequires2sa (requires_2sa env icloud) in
     if r2sa : bool
     then
       (if raise_error_on_2sa
        then raise (TwoStepAuthRequiredError msg_2sa_required_error)
        else ret tt);;;
       logger_info logger msg_2sa_required;;;
       request_2sa icloud logger
     else ret tt);;;
  ret icloud.

(** [authenticate_(username, password, ...)] as returned by
    [authenticator(domain)]. *)
Definition authenticate_ (fuel : nat) (password : PyVal) : M W Session :=
  let* logger := setup_logger in
  logger_debug logger "Authenticating...";;;
  let* icloud := bootstrap fuel password in
  completeAuthentication icloud logger.

End Authenticate.
End Authentication.

(** ** A scripted world

    A concrete pair of collaborators that answer from fixed scripts, used
    to run the module on examples.  A session is its three facets; every
    kind of call consumes the next entry of its own script. *)

Module Scripted.

Record Sess := {
  s_requires_2fa : bool;
  s_requires_2sa : bool;
  s_devices : list Device;
}.

Record Script := {
  opens : list (Exn + Sess);
  typed : list string;
  chosen : list Z;
  deliveries : list bool;
  validations : list bool;
}.

Definition next_open (w : Script) : (Exn + Sess) * Script :=
  match opens w with
  | r :: rest =>
      (r, {| opens := rest; typed := typed w; chosen := chosen w;
             deliveries := deliveries w; validations := validations w |})
  | [] => (inl (OtherError "script" "no more answers"), w)
  end.

Definition next_typed (w : Script) : string * Script :=
  match typed w with
  | s :: rest =>
      (s, {| opens := opens w; typed := rest; chosen := chosen w;
             deliveries := deliveries w; validations := validations w |})
  | [] => ("", w)
  end.

Definition next_chosen (dflt : Z) (w : Script) : Z * Script :=
  match chosen w with
  | i :: rest =>
      (i, {| opens := opens w; typed := typed w; chosen := rest;
             deliveries := deliveries w; validations := validations w |})
  | [] => (dflt, w)
  end.

Definition next_delivery (w : Script) : bool * Script :=
  match deliveries w with
  | b :: rest =>
      (b, {| opens := opens w; typed := typed w; chosen := chosen w;
             deliveries := rest; validations := validations w |})
  | [] => (false, w)
  end.

Definition next_validation (w : Script) : bool * Script :=
  match validations w with
  | b :: rest =>
      (b, {| opens := opens w; typed := typed w; chosen := chosen w;
             deliveries := deliveries w; validations := rest |})
  | [] => (false, w)
  end.

Definition env : Collaborators Script Sess :=
  {| PyiCloudService := λ _ w, next_open w;
     requires_2fa := λ s _, s_requires_2fa s;
     requires_2sa := λ s _, s_requires_2sa s;
     trusted_devices := λ s _, s_devices s;
     send_verification_code := λ _ _ w, next_delivery w;
     validate_verification_code := λ _ _ _ w, next_validation w;
     validate_2fa_code := λ _ _ w, next_validation w;
     click_prompt := λ _ _ w, next_typed w;
     click_prompt_int := λ _ dflt _ _ w, next_chosen dflt w |}.

Definition quiet : Script :=
  {| opens := []; typed := []; chosen := [];
     deliveries := []; validations := [] |}.

Definition start (w : Script) : St Script := mkSt w [].

(** Sessions in each of the four facet combinations. *)
Definition plain : Sess :=
  {| s_requires_2fa := false; s_requires_2sa := false; s_devices := [] |}.
Definition strong_only : Sess :=
  {| s_requires_2fa := true; s_requires_2sa := false; s_devices := [] |}.
Definition both : Sess :=
  {| s_requires_2fa := true; s_requires_2sa := true; s_devices := [] |}.

Definition iphone : Device := {[ "deviceName" := "iPhone" ]}.
Definition iphone_by_display_name : Device :=
  {[ "displayName" := "iPhone" ]}.
Definition sms : Device := {[ "phoneNumber" := "+15551234" ]}.

Definition legacy_with (devices : list Device) : Sess :=
  {| s_requires_2fa := false; s_requires_2sa := true;
     s_devices := devices |}.

(** A human who types one verification code, and a server that accepts
    or refuses it. *)
Definition code_accepted : Script :=
  {| opens := []; typed := ["123456"]; chosen := [];
     deliveries := []; validations := [true] |}.
Definition code_refused : Script :=
  {| opens := []; typed := ["123456"]; chosen := [];
     deliveries := []; validations := [false] |}.

(** The same with a choice from the device menu and a delivery. *)
Definition choose (index : Z) (delivered accepted : bool) : Script :=
  {| opens := []; typed := ["123456"]; chosen := [index];
     deliveries := [delivered]; validations := [accepted] |}.

(** No password on the command line and none in the keyring: the first
    call of the constructor raises, every later one returns [plain]. *)
Definition no_stored_password_once : Script :=
  {| opens := [inl PyiCloudNoStoredPasswordAvailableException;
               inr plain; inr plain];
     typed := ["hunter2"]; chosen := [];
     deliveries := []; validations := [] |}.

(** The keyring is empty and the call in the handler raises as well. *)
Definition no_stored_password_twice : Script :=
  {| opens := [inl PyiCloudNoStoredPasswordAvailableException;
               inl PyiCloudNoStoredPasswordAvailableException;
               inr plain];
     typed := ["hunter2"; "hunter3"]; chosen := [];
     deliveries := []; validations := [] |}.

(** The server rejects the login. *)
Definition login_rejected : Script :=
  {| opens := [inl (OtherError "PyiCloudFailedLoginException"
                               "Invalid email/password combination.");
               inr plain];
     typed := ["hunter2"]; chosen := [];
     deliveries := []; validations := [] |}.

(** The keyring is empty and the server rejects the call of the handler. *)
Definition rejected_after_prompt : Script :=
  {| opens := [inl PyiCloudNoStoredPasswordAvailableException;
               inl (OtherError "PyiCloudFailedLoginException"
                               "Invalid email/password combination.");
               inr plain];
     typed := ["hunter2"]; chosen := [];
     deliveries := []; validations := [] |}.

(** A keyring that stays empty for [n] passes of the loop: the [try] call
    raises "no stored password" [n] times, each time the call of the
    handler goes through, and the call after that succeeds. *)
Fixpoint empty_keyring_opens (n : nat) : list (Exn + Sess) :=
  match n with
  | O => [inr plain]
  | S n' =>
      inl PyiCloudNoStoredPasswordAvailableException
      :: inr plain :: empty_keyring_opens n'
  end.

Definition keeps_asking (n : nat) : Script :=
  {| opens := empty_keyring_opens n; typed := replicate n "hunter2";
     chosen := []; deliveries := []; validations := [] |}.

(** A session that needs no verification on the first call. *)
Definition opens_at_once : Script :=
  {| opens := [inr plain]; typed := []; chosen := [];
     deliveries := []; validations := [] |}.

End Scripted.

(** ** Observations on runs *)

(** Text prompts ([click.prompt] without a type), as opposed to the
    integer selection prompt. *)
Definition is_text_prompt (e : Event) : bool :=
  match e with
  | EvPrompt _ _ => true
  | _ => false
  end.

Definition is_menu (e : Event) : bool :=
  match e with
  | EvPrint _ | EvPromptInt _ _ _ _ => true
  | _ => false
  end.

(** What [print] wrote, in order. *)
Definition printed (t : list Event) : list string :=
  omap (λ e, match e with EvPrint line => Some line | _ => None end) t.

(** The lines of the device menu as they reach standard output. *)
Definition menu_events (devices : list Device) : list Event :=
  imap (λ k d, EvPrint ("  " +:+ pretty k +:+ ": " +:+
                        match d !! "deviceName" with
                        | Some name => name
                        | None => "SMS to " +:+ py_str (d !! "phoneNumber")
                        end)) devices
  ++ [EvPrint ("  " +:+ pretty (length devices)
               +:+ ": Enter two-factor authentication code")].

Definition selection_prompt (devices : list Device) : Event :=
  EvPromptInt "Please choose an option:" 0 0 (Z.of_nat (length devices)).

Section Selection.
Context {W Session : Type} (env : Collaborators W Session).

(** How [request_2sa] arrives at the device it validates against, read
    off the answers of the collaborators: [Selected icloud st device w
    evs] says that, started in [st], the device is [device], the world
    has moved to [w] and [evs] was logged after the device-list read. *)
Inductive Selected (icloud : Session) (st : St W)
  : Device → W → list Event → Prop :=
  | selected_no_devices :
      trusted_devices env icloud (world st) = [] →
      Selected icloud st ∅ (world st) []
  | selected_already_received devices w1 :
      trusted_devices env icloud (world st) = devices →
      devices ≠ [] →
      click_prompt_int env "Please choose an option:" 0 0
        (Z.of_nat (length devices)) (world st)
      = (Z.of_nat (length devices), w1) →
      Selected icloud st ∅ w1
        (menu_events devices ++ [selection_prompt devices])
  | selected_delivered devices index w1 device w2 :
      trusted_devices env icloud (world st) = devices →
      devices ≠ [] →
      click_prompt_int env "Please choose an option:" 0 0
        (Z.of_nat (length devices)) (world st)
      = (index, w1) →
      index ≠ Z.of_nat (length devices) →
      py_getitem devices index = Some device →
      send_verification_code env icloud device w1 = (true, w2) →
      Selected icloud st device w2
        (menu_events devices
         ++ [selection_prompt devices; EvSendCode device]).

End Selection.

Section Passes.
Context {W Session : Type} (env : Collaborators W Session).
Variables (domain username : string) (cookie_directory : option string)
          (client_id : option string) (china_mainland : bool).

(** How the loop gets from the start of one pass to the start of a later
    one, read off the answers of the collaborators: [GoesRound password st
    password' st'] says that a pass entered with [password] in state [st]
    leads, through zero or more passes in each of which the [try] call
    raised "no stored password", a password was typed and the call of the
    handler returned, to a pass entered with [password'] in state [st']. *)
Inductive GoesRound : PyVal → St W → PyVal → St W → Prop :=
  | goes_round_here password st :
      GoesRound password st password st
  | goes_round_again password st w1 typed w2 icloud w3 password' st' :
      PyiCloudService env
        (try_args domain username cookie_directory client_id china_mainland
                  password) (world st)
      = (inl PyiCloudNoStoredPasswordAvailableException, w1) →
      click_prompt env "iCloud Password" true w1 = (typed, w2) →
      PyiCloudService env
        (except_args username cookie_directory client_id china_mainland
                     typed) w2
      = (inr icloud, w3) →
      GoesRound (PyStr typed)
        (mkSt w3
           (trace st
            ++ [EvOpenSession
                  (try_args domain username cookie_directory client_id
                            china_mainland password);
                EvPrompt "iCloud Password" true;
                EvOpenSession
                  (except_args username cookie_directory client_id
                               china_mainland typed)]))
        password' st' →
      GoesRound password st password' st'.

End Passes.

(** The events each verification flow can log at all.  [covers_2fa Q]
    and [covers_2sa Q] say that [Q] holds of each of them; they are the
    premises under which [Q] holds of everything the flow does. *)
Definition covers_2fa (Q : Event → Prop) : Prop :=
  Q (EvPrompt "Please enter two-factor authentication code" false)
  ∧ (∀ code, Q (EvValidate2fa code))
  ∧ (∀ msg, Q (EvLog INFO msg))
  ∧ (∀ msg, Q (EvLog ERROR msg)).

Definition covers_2sa (Q : Event → Prop) : Prop :=
  Q EvTrustedDevices
  ∧ (∀ line, Q (EvPrint line))
  ∧ (∀ hi, Q (EvPromptInt "Please choose an option:" 0 0 hi))
  ∧ (∀ device, Q (EvSendCode device))
  ∧ Q (EvPrompt "Please enter two-factor authentication code" false)
  ∧ (∀ device code, Q (EvValidateCode device code))
  ∧ (∀ msg, Q (EvLog INFO msg))
  ∧ (∀ msg, Q (EvLog ERROR msg)).

(** ** Running the pieces *)

Ltac norm_trace := simpl; repeat rewrite <- app_assoc; simpl.

Section Runs.
Context {W Session : Type} (env : Collaborators W Session).

Lemma bind_returned {A B} (m : M W A) (k : A → M W B) st a st' :
  m st = (Returned a, st') → bind m k st = k a st'.
Proof. intros H. unfold bind. by rewrite H. Qed.

Lemma bind_raised {A B} (m : M W A) (k : A → M W B) st e st' :
  m st = (Raised e, st') → bind m k st = (Raised e, st').
Proof. intros H. unfold bind. by rewrite H. Qed.

Lemma prompt_run text hide st answer w :
  click_prompt env text hide (world st) = (answer, w) →
  prompt env text hide st
  = (Returned answer, mkSt w (trace st ++ [EvPrompt text hide])).
Proof. intros H. unfold prompt, call. by rewrite H. Qed.

Lemma prompt_int_run text dflt lo hi st answer w :
  click_prompt_int env text dflt lo hi (world st) = (answer, w) →
  prompt_int env text dflt lo hi st
  = (Returned answer, mkSt w (trace st ++ [EvPromptInt text dflt lo hi])).
Proof. intros H. unfold prompt_int, call. by rewrite H. Qed.

(** The loop over the devices prints one line per device, numbered from
    the index it is entered with, and touches nothing else. *)
Lemma print_devices_run (devices : list Device) : ∀ (i : nat) (st : St W),
  print_devices i devices st
  = (Returned tt,
     mkSt (world st)
          (trace st ++ imap (λ k d, EvPrint ("  " +:+ pretty (i + k)%nat
                                             +:+ ": " +:+ device_label d))
                            devices)).
Proof.
  induction devices as [|d rest IH]; intros i st; simpl.
  - unfold ret. rewrite app_nil_r. by destruct st.
  - unfold bind, py_print, emit. rewrite IH. simpl.
    rewrite <- app_assoc. simpl.
    rewrite Nat.add_0_r. do 4 f_equal.
    apply imap_ext. intros k x _. simpl. by rewrite Nat.add_succ_r.
Qed.

(** Two-factor resolution: one plain prompt, one validation, then either
    the guidance notice or the error and [sys.exit(1)]. *)
Lemma request_2fa_run icloud logger st code w1 ok w2 :
  click_prompt env msg_code_prompt false (world st) = (code, w1) →
  validate_2fa_code env icloud code w1 = (ok, w2) →
  request_2fa env icloud logger st
  = (if ok then Returned tt else Raised (SystemExit 1),
     mkSt w2 (trace st ++ [EvPrompt msg_code_prompt false;
                           EvValidate2fa code;
                           EvLog (if ok then INFO else ERROR)
                                 (if ok then msg_2fa_done
                                  else msg_verify_failed)])).
Proof.
  intros Hp Hv. unfold request_2fa.
  rewrite (bind_returned _ _ _ _ _ (prompt_run _ _ _ _ _ Hp)).
  unfold bind at 1. unfold call. simpl. rewrite Hv.
  destruct ok; simpl; unfold bind, logger_info, logger_error, emit; simpl;
    by norm_trace.
Qed.

End Runs.

Section Runs2sa.
Context {W Session : Type} (env : Collaborators W Session).

Lemma device_label_spec (d : Device) :
  device_label d
  = match d !! "deviceName" with
    | Some name => name
    | None => "SMS to " +:+ py_str (d !! "phoneNumber")
    end.
Proof. unfold device_label. by destruct (d !! "deviceName"). Qed.

Lemma lt_length_nonempty {A} (l : list A) :
  l ≠ [] → (0 <? length l)%nat = true.
Proof. destruct l; [done|]. intros _. by apply Nat.ltb_lt; simpl; lia. Qed.

(** Menu and selection prompt, for a non-empty list. *)
Lemma menu_run (devices : list Device) (st : St W) index w1 :
  click_prompt_int env "Please choose an option:" 0 0
    (Z.of_nat (length devices)) (world st) = (index, w1) →
  (print_devices (W:=W) 0 devices;;;
   py_print ("  " +:+ pretty (length devices)
             +:+ ": Enter two-factor authentication code");;;
   prompt_int env "Please choose an option:" 0 0
              (Z.of_nat (length devices)))%py st
  = (Returned index,
     mkSt w1 (trace st ++ menu_events devices ++ [selection_prompt devices])).
Proof.
  intros Hc. unfold bind at 1. rewrite print_devices_run. simpl.
  unfold bind, py_print, emit, prompt_int, call. simpl. rewrite Hc.
  unfold menu_events, selection_prompt. norm_trace. reflexivity.
Qed.

(** The last part of [request_2sa], from the code prompt on. *)
Lemma code_entry_run icloud logger device (st : St W) code w1 ok w2 :
  click_prompt env msg_code_prompt false (world st) = (code, w1) →
  validate_verification_code env icloud device code w1 = (ok, w2) →
  (let* code := prompt env msg_code_prompt false in
   let* ok := call (EvValidateCode device code)
                   (validate_verification_code env icloud device code) in
   (if negb ok
    then (logger_error logger msg_verify_failed;;; sys_exit 1)
    else ret tt);;;
   logger_info logger msg_2sa_done)%py st
  = (if ok then Returned tt else Raised (SystemExit 1),
     mkSt w2 (trace st ++ [EvPrompt msg_code_prompt false;
                           EvValidateCode device code;
                           EvLog (if ok then INFO else ERROR)
                                 (if ok then msg_2sa_done
                                  else msg_verify_failed)])).
Proof.
  intros Hp Hv.
  rewrite (bind_returned _ _ _ _ _ (prompt_run _ _ _ _ _ _ Hp)).
  unfold bind at 1. unfold call. simpl. rewrite Hv.
  destruct ok; simpl; unfold bind, logger_info, logger_error, emit; simpl;
    by norm_trace.
Qed.

(** Once a device is settled, the run is the code prompt and one
    validation against that device. *)
Lemma request_2sa_run icloud logger st device w evs code w1 ok w2 :
  Selected env icloud st device w evs →
  click_prompt env msg_code_prompt false w = (code, w1) →
  validate_verification_code env icloud device code w1 = (ok, w2) →
  request_2sa env icloud logger st
  = (if ok then Returned tt else Raised (SystemExit 1),
     mkSt w2 (trace st ++ EvTrustedDevices :: evs
              ++ [EvPrompt msg_code_prompt false;
                  EvValidateCode device code;
                  EvLog (if ok then INFO else ERROR)
                        (if ok then msg_2sa_done else msg_verify_failed)])).
Proof.
  intros Hsel Hp Hv. unfold request_2sa.
  unfold bind at 1, read. simpl.
  destruct Hsel as [Hd | devices w' Hd Hne Hc
                    | devices index w' dev w'' Hd Hne Hc Hi Hg Hs].
  - rewrite Hd. simpl. unfold bind at 1. simpl. unfold bind at 1. simpl.
    erewrite code_entry_run by (simpl; eassumption).
    by norm_trace.
  - rewrite Hd. rewrite (lt_length_nonempty _ Hne).
    unfold bind at 1. erewrite menu_run by (simpl; eassumption).
    rewrite Z.eqb_refl. unfold bind at 1. simpl.
    erewrite code_entry_run by (simpl; eassumption).
    by norm_trace.
  - rewrite Hd. rewrite (lt_length_nonempty _ Hne).
    unfold bind at 1. erewrite menu_run by (simpl; eassumption).
    apply Z.eqb_neq in Hi. rewrite Hi. rewrite Hg.
    unfold bind at 1. unfold bind at 1. simpl.
    unfold bind at 1. unfold call at 1. simpl. rewrite Hs. simpl.
    erewrite code_entry_run by (simpl; eassumption).
    by norm_trace.
Qed.

(** A delivery that is refused ends the run on the spot. *)
Lemma request_2sa_delivery_failed icloud logger st devices index w1 device w2 :
  trusted_devices env icloud (world st) = devices →
  devices ≠ [] →
  click_prompt_int env "Please choose an option:" 0 0
    (Z.of_nat (length devices)) (world st) = (index, w1) →
  index ≠ Z.of_nat (length devices) →
  py_getitem devices index = Some device →
  send_verification_code env icloud device w1 = (false, w2) →
  request_2sa env icloud logger st
  = (Raised (SystemExit 1),
     mkSt w2 (trace st ++ EvTrustedDevices :: menu_events devices
              ++ [selection_prompt devices; EvSendCode device;
                  EvLog ERROR msg_send_failed])).
Proof.
  intros Hd Hne Hc Hi Hg Hs. unfold request_2sa.
  unfold bind at 1, read. simpl.
  rewrite Hd. rewrite (lt_length_nonempty _ Hne).
  unfold bind at 1. erewrite menu_run by (simpl; eassumption).
  apply Z.eqb_neq in Hi. rewrite Hi. rewrite Hg.
  unfold bind at 1. unfold bind at 1. simpl.
  unfold bind at 1. unfold call at 1. simpl. rewrite Hs. simpl.
  unfold bind, logger_error, emit. by norm_trace.
Qed.

(** An answer that addresses no entry of the list raises [IndexError]. *)
Lemma request_2sa_index_error icloud logger st devices index w1 :
  trusted_devices env icloud (world st) = devices →
  devices ≠ [] →
  click_prompt_int env "Please choose an option:" 0 0
    (Z.of_nat (length devices)) (world st) = (index, w1) →
  index ≠ Z.of_nat (length devices) →
  py_getitem devices index = None →
  request_2sa env icloud logger st
  = (Raised IndexError,
     mkSt w1 (trace st ++ EvTrustedDevices :: menu_events devices
              ++ [selection_prompt devices])).
Proof.
  intros Hd Hne Hc Hi Hg. unfold request_2sa.
  unfold bind at 1, read. simpl.
  rewrite Hd. rewrite (lt_length_nonempty _ Hne).
  unfold bind at 1. erewrite menu_run by (simpl; eassumption).
  apply Z.eqb_neq in Hi. rewrite Hi. rewrite Hg.
  unfold bind, raise. by norm_trace.
Qed.

(** Whatever happens later, a non-empty device list is first shown as
    the menu and followed by the selection prompt. *)
Lemma request_2sa_menu_first icloud logger st devices :
  trusted_devices env icloud (world st) = devices →
  devices ≠ [] →
  ∃ tail : list Event,
    trace (request_2sa env icloud logger st).2
    = trace st ++ EvTrustedDevices :: menu_events devices
      ++ selection_prompt devices :: tail.
Proof.
  intros Hd Hne.
  destruct (click_prompt_int env "Please choose an option:" 0 0
              (Z.of_nat (length devices)) (world st)) as [index w1] eqn:Hc.
  destruct (decide (index = Z.of_nat (length devices))) as [-> | Hi].
  - destruct (click_prompt env msg_code_prompt false w1) as [code w2] eqn:Hp.
    destruct (validate_verification_code env icloud ∅ code w2)
      as [ok w3] eqn:Hv.
    erewrite request_2sa_run
      by (try eapply selected_already_received; eassumption).
    eexists. norm_trace. reflexivity.
  - destruct (py_getitem devices index) as [device|] eqn:Hg.
    + destruct (send_verification_code env icloud device w1)
        as [[|] w2] eqn:Hs.
      * destruct (click_prompt env msg_code_prompt false w2)
          as [code w3] eqn:Hp.
        destruct (validate_verification_code env icloud device code w3)
          as [ok w4] eqn:Hv.
        erewrite request_2sa_run
          by (try eapply selected_delivered; eassumption).
        eexists. norm_trace. reflexivity.
      * erewrite request_2sa_delivery_failed by eassumption.
        eexists. norm_trace. reflexivity.
    + erewrite request_2sa_index_error by eassumption.
      exists []. by norm_trace.
Qed.

(** The ways through [request_2sa] are these and no others: a device (or
    the empty dict) is settled and the code is asked for, or delivery is
    refused, or the answer addresses nothing in the list. *)
Lemma request_2sa_ways icloud (st : St W) :
  (∃ device w evs, Selected env icloud st device w evs)
  ∨ (∃ index w1 device w2,
       trusted_devices env icloud (world st) ≠ []
       ∧ click_prompt_int env "Please choose an option:" 0 0
           (Z.of_nat (length (trusted_devices env icloud (world st))))
           (world st) = (index, w1)
       ∧ index ≠ Z.of_nat (length (trusted_devices env icloud (world st)))
       ∧ py_getitem (trusted_devices env icloud (world st)) index
         = Some device
       ∧ send_verification_code env icloud device w1 = (false, w2))
  ∨ (∃ index w1,
       trusted_devices env icloud (world st) ≠ []
       ∧ click_prompt_int env "Please choose an option:" 0 0
           (Z.of_nat (length (trusted_devices env icloud (world st))))
           (world st) = (index, w1)
       ∧ index ≠ Z.of_nat (length (trusted_devices env icloud (world st)))
       ∧ py_getitem (trusted_devices env icloud (world st)) index = None).
Proof.
  destruct (trusted_devices env icloud (world st)) as [|d rest] eqn:Hd.
  { left. eexists _, _, _. by apply selected_no_devices. }
  rewrite <- Hd.
  assert (trusted_devices env icloud (world st) ≠ []) as Hne
    by (by rewrite Hd).
  destruct (click_prompt_int env "Please choose an option:" 0 0
              (Z.of_nat (length (trusted_devices env icloud (world st))))
              (world st)) as [index w1] eqn:Hc.
  destruct (decide (index
                    = Z.of_nat (length (trusted_devices env icloud
                                          (world st))))) as [-> | Hi].
  { left. eexists _, _, _.
    eapply (selected_already_received env icloud st); [reflexivity|done|].
    exact Hc. }
  destruct (py_getitem (trusted_devices env icloud (world st)) index)
    as [device|] eqn:Hg.
  - destruct (send_verification_code env icloud device w1)
      as [[|] w2] eqn:Hs.
    + left. eexists _, _, _.
      eapply (selected_delivered env icloud st);
        [reflexivity | done | exact Hc | done | exact Hg | exact Hs].
    + right. left. by eexists _, _, _, _.
  - right. right. by eexists _, _.
Qed.

End Runs2sa.

Section RunsAuthenticate.
Context {W Session : Type} (env : Collaborators W Session).
Variables (domain username : string) (cookie_directory : option string)
          (client_id : option string) (china_mainland : bool).

Local Abbreviation bootstrap' :=
  (bootstrap env domain username cookie_directory client_id china_mainland).
Local Abbreviation try_args' :=
  (try_args domain username cookie_directory client_id china_mainland).
Local Abbreviation except_args' :=
  (except_args username cookie_directory client_id china_mainland).

Lemma open_session_returned args (st : St W) icloud w :
  PyiCloudService env args (world st) = (inr icloud, w) →
  open_session env args st
  = (Returned icloud, mkSt w (trace st ++ [EvOpenSession args])).
Proof. intros H. unfold open_session. by rewrite H. Qed.

Lemma open_session_raised args (st : St W) e w :
  PyiCloudService env args (world st) = (inl e, w) →
  open_session env args st
  = (Raised e, mkSt w (trace st ++ [EvOpenSession args])).
Proof. intros H. unfold open_session. by rewrite H. Qed.

(** The [try] call succeeds: [break]. *)
Lemma bootstrap_break fuel password st icloud w :
  PyiCloudService env (try_args' password) (world st) = (inr icloud, w) →
  bootstrap' (S fuel) password st
  = (Returned icloud,
     mkSt w (trace st ++ [EvOpenSession (try_args' password)])).
Proof.
  intros H. simpl. by rewrite (open_session_returned _ _ _ _ H).
Qed.

(** The [try] call fails with something the handler does not catch. *)
Lemma bootstrap_uncaught fuel password st e w :
  PyiCloudService env (try_args' password) (world st) = (inl e, w) →
  e ≠ PyiCloudNoStoredPasswordAvailableException →
  bootstrap' (S fuel) password st
  = (Raised e, mkSt w (trace st ++ [EvOpenSession (try_args' password)])).
Proof.
  intros H Hne. simpl. rewrite (open_session_raised _ _ _ _ H).
  by destruct e.
Qed.

(** The handler runs and its own call fails: the exception leaves the
    function, whatever its class. *)
Lemma bootstrap_handler_raised fuel password st w1 typed w2 e w3 :
  PyiCloudService env (try_args' password) (world st)
  = (inl PyiCloudNoStoredPasswordAvailableException, w1) →
  click_prompt env "iCloud Password" true w1 = (typed, w2) →
  PyiCloudService env (except_args' typed) w2 = (inl e, w3) →
  bootstrap' (S fuel) password st
  = (Raised e,
     mkSt w3 (trace st ++ [EvOpenSession (try_args' password);
                           EvPrompt "iCloud Password" true;
                           EvOpenSession (except_args' typed)])).
Proof.
  intros H1 Hp H2. simpl. rewrite (open_session_raised _ _ _ _ H1).
  erewrite bind_returned by (apply prompt_run; simpl; eassumption).
  erewrite bind_raised by (apply open_session_raised; simpl; eassumption).
  by norm_trace.
Qed.

(** The handler runs and its own call succeeds: the session it obtained
    is dropped and the loop body is entered again. *)
Lemma bootstrap_handler_returned fuel password st w1 typed w2 icloud w3 :
  PyiCloudService env (try_args' password) (world st)
  = (inl PyiCloudNoStoredPasswordAvailableException, w1) →
  click_prompt env "iCloud Password" true w1 = (typed, w2) →
  PyiCloudService env (except_args' typed) w2 = (inr icloud, w3) →
  bootstrap' (S fuel) password st
  = bootstrap' fuel (PyStr typed)
      (mkSt w3 (trace st ++ [EvOpenSession (try_args' password);
                             EvPrompt "iCloud Password" true;
                             EvOpenSession (except_args' typed)])).
Proof.
  intros H1 Hp H2. simpl. rewrite (open_session_raised _ _ _ _ H1).
  erewrite bind_returned by (apply prompt_run; simpl; eassumption).
  erewrite bind_returned by (apply open_session_returned; simpl; eassumption).
  by norm_trace.
Qed.

(** The loop only ever appends to the trace. *)
Lemma bootstrap_extends fuel : ∀ password st,
  ∃ tail : list Event,
    trace (bootstrap' fuel password st).2 = trace st ++ tail.
Proof.
  induction fuel as [|fuel IH]; intros password st.
  - exists []. simpl. by rewrite app_nil_r.
  - destruct (PyiCloudService env (try_args' password) (world st))
      as [[e|icloud] w1] eqn:H1.
    + destruct (decide (e = PyiCloudNoStoredPasswordAvailableException))
        as [-> | Hne].
      * destruct (click_prompt env "iCloud Password" true w1)
          as [typed w2] eqn:Hp.
        destruct (PyiCloudService env (except_args' typed) w2)
          as [[e|icloud] w3] eqn:H2.
        -- erewrite bootstrap_handler_raised by eassumption.
           eexists. reflexivity.
        -- erewrite bootstrap_handler_returned by eassumption.
           destruct (IH (PyStr typed)
                        (mkSt w3 (trace st
                                  ++ [EvOpenSession (try_args' password);
                                      EvPrompt "iCloud Password" true;
                                      EvOpenSession (except_args' typed)])))
             as [tail Ht].
           rewrite Ht. eexists. norm_trace. reflexivity.
      * erewrite bootstrap_uncaught by eassumption. eexists. reflexivity.
    + erewrite bootstrap_break by eassumption. eexists. reflexivity.
Qed.

End RunsAuthenticate.

(** ** Counting events *)

Lemma count_nil p : count p [] = 0%nat.
Proof. reflexivity. Qed.

Lemma count_app p (a b : list Event) :
  count p (a ++ b) = (count p a + count p b)%nat.
Proof. unfold count. by rewrite filter_app, length_app. Qed.

Lemma count_cons p e (t : list Event) :
  count p (e :: t) = ((if p e then 1 else 0) + count p t)%nat.
Proof.
  unfold count. destruct (p e) eqn:He.
  - by rewrite filter_cons_True.
  - rewrite filter_cons_False; [done|]. by rewrite He.
Qed.

Lemma count_printed p (line : nat → Device → string) (devices : list Device) :
  (∀ text, p (EvPrint text) = false) →
  count p (imap (λ k d, EvPrint (line k d)) devices) = 0%nat.
Proof.
  intros Hp. revert line.
  induction devices as [|d rest IH]; intros line; [done|].
  simpl. rewrite count_cons, Hp. simpl. apply (IH (λ k, line (S k))).
Qed.

(** The menu consists of printed lines only. *)
Lemma count_menu p (devices : list Device) :
  (∀ text, p (EvPrint text) = false) →
  count p (menu_events devices) = 0%nat.
Proof.
  intros Hp. unfold menu_events.
  rewrite count_app, count_cons, Hp, count_nil.
  by rewrite count_printed.
Qed.

(** ** Challenge handling after the session is open *)

Section Challenge.
Context {W Session : Type} (env : Collaborators W Session).

(** C9. A session for which neither [requires_2fa] nor [requires_2sa]
    holds is handed back as it is: the only things done are the two facet
    reads, so there is no prompt, no delivery, no validation, and the
    world (in which the session lives) is left as it was.  This holds in
    both modes. *)
Theorem C9_authenticated_session_returned_unchanged
    (raise_error_on_2sa : bool) icloud logger (st : St W) :
  requires_2fa env icloud (world st) = false →
  requires_2sa env icloud (world st) = false →
  completeAuthentication env raise_error_on_2sa icloud logger st
  = (Returned icloud,
     mkSt (world st) (trace st ++ [EvRequires2fa; EvRequires2sa])).
Proof.
  intros H2fa H2sa. unfold completeAuthentication.
  unfold bind at 1. unfold bind at 1. unfold read at 1. simpl.
  rewrite H2fa. unfold bind at 1. unfold read at 1. simpl.
  rewrite H2sa. unfold ret. by norm_trace.
Qed.

(** C2. In non-interactive mode a session that requires either kind of
    verification makes [completeAuthentication] raise
    [TwoStepAuthRequiredError].  The message tells the regime: one text
    for two-factor, a different one for two-step.  Up to the raise only
    the facets were read: no prompt, no call to the server, the world is
    untouched. *)
Theorem C2_noninteractive_challenge_is_raised icloud logger (st : St W) :
  requires_2fa env icloud (world st) = true
  ∨ requires_2sa env icloud (world st) = true →
  ∃ (msg : string) (delta : list Event),
    completeAuthentication env true icloud logger st
    = (Raised (TwoStepAuthRequiredError msg),
       mkSt (world st) (trace st ++ delta))
    ∧ count is_prompt delta = 0%nat
    ∧ count is_network delta = 0%nat
    ∧ (msg, delta)
      = (if requires_2fa env icloud (world st)
         then ("Two-factor authentication is required!", [EvRequires2fa])
         else ("Two-step/two-factor authentication is required!",
               [EvRequires2fa; EvRequires2sa]))
    ∧ "Two-factor authentication is required!"
      ≠ "Two-step/two-factor authentication is required!".
Proof.
  intros H. unfold completeAuthentication.
  destruct (requires_2fa env icloud (world st)) eqn:H2fa.
  - exists msg_2fa_required, [EvRequires2fa].
    repeat split; try done.
    unfold bind at 1. unfold bind at 1. unfold read at 1. simpl.
    rewrite H2fa. reflexivity.
  - destruct H as [H|H]; [done|].
    exists msg_2sa_required_error, [EvRequires2fa; EvRequires2sa].
    repeat split; try done.
    unfold bind at 1. unfold bind at 1. unfold read at 1. simpl.
    rewrite H2fa. unfold bind at 1. unfold read at 1. simpl.
    rewrite H. simpl. unfold bind, raise. by norm_trace.
Qed.

(** C3 (as amended).  When both facets hold, two-factor handling is
    the one that is entered and nothing of two-step handling happens:
    [requires_2sa] is not read, no device list is fetched, no menu is
    shown, nothing is delivered.  In interactive mode the run is exactly
    the two-factor flow (notice, code prompt, one validation); in
    non-interactive mode it is the raise with the two-factor message and
    the flow itself is not run. *)
Theorem C3_two_factor_takes_precedence
    (raise_error_on_2sa : bool) icloud logger (st : St W) code w1 ok w2 :
  requires_2fa env icloud (world st) = true →
  requires_2sa env icloud (world st) = true →
  click_prompt env "Please enter two-factor authentication code" false
    (world st) = (code, w1) →
  validate_2fa_code env icloud code w1 = (ok, w2) →
  ∃ (out : Outcome Session) (st' : St W) (delta : list Event),
    completeAuthentication env raise_error_on_2sa icloud logger st
    = (out, st')
    ∧ trace st' = trace st ++ delta
    ∧ count is_legacy delta = 0%nat
    ∧ (raise_error_on_2sa = true →
       out = Raised (TwoStepAuthRequiredError
                       "Two-factor authentication is required!")
       ∧ world st' = world st
       ∧ delta = [EvRequires2fa])
    ∧ (raise_error_on_2sa = false →
       out = (if ok then Returned icloud else Raised (SystemExit 1))
       ∧ world st' = w2
       ∧ delta = [EvRequires2fa;
                  EvLog INFO "Two-factor authentication is required!";
                  EvPrompt "Please enter two-factor authentication code"
                           false;
                  EvValidate2fa code;
                  EvLog (if ok then INFO else ERROR)
                        (if ok then msg_2fa_done
                         else "Failed to verify two-factor authentication code")]).
Proof.
  intros H2fa _ Hp Hv. unfold completeAuthentication.
  unfold bind at 1. unfold bind at 1. unfold read at 1. simpl.
  rewrite H2fa. destruct raise_error_on_2sa.
  - eexists _, _, [EvRequires2fa]. simpl.
    repeat split; try done.
  - unfold bind at 1. unfold bind at 1. simpl.
    erewrite request_2fa_run by (simpl; eassumption).
    destruct ok; simpl.
    + eexists _, _, _. split; [reflexivity|]. norm_trace.
      repeat split; try done.
    + eexists _, _, _. split; [reflexivity|]. norm_trace.
      repeat split; try done.
Qed.

End Challenge.

(** C9 on the scripted world: a plain session comes back untouched. *)
Lemma C9_witness :
  requires_2fa Scripted.env Scripted.plain
    (world (Scripted.start Scripted.quiet)) = false
  ∧ requires_2sa Scripted.env Scripted.plain
      (world (Scripted.start Scripted.quiet)) = false
  ∧ completeAuthentication Scripted.env true Scripted.plain icloudpd_logger
      (Scripted.start Scripted.quiet)
    = (Returned Scripted.plain,
       mkSt Scripted.quiet [EvRequires2fa; EvRequires2sa]).
Proof.
  split; [reflexivity|]. split; [reflexivity|].
  apply (C9_authenticated_session_returned_unchanged
           Scripted.env true Scripted.plain icloudpd_logger
           (Scripted.start Scripted.quiet)); reflexivity.
Defined.

(** C2 on the scripted world: a session that requires two-step only. *)
Lemma C2_witness :
  (requires_2fa Scripted.env (Scripted.legacy_with [Scripted.iphone])
     (world (Scripted.start Scripted.quiet)) = true
   ∨ requires_2sa Scripted.env (Scripted.legacy_with [Scripted.iphone])
       (world (Scripted.start Scripted.quiet)) = true)
  ∧ ∃ (msg : string) (delta : list Event),
      completeAuthentication Scripted.env true
        (Scripted.legacy_with [Scripted.iphone]) icloudpd_logger
        (Scripted.start Scripted.quiet)
      = (Raised (TwoStepAuthRequiredError msg),
         mkSt Scripted.quiet ([] ++ delta))
      ∧ count is_prompt delta = 0%nat
      ∧ count is_network delta = 0%nat
      ∧ (msg, delta)
        = ("Two-step/two-factor authentication is required!",
           [EvRequires2fa; EvRequires2sa])
      ∧ "Two-factor authentication is required!"
        ≠ "Two-step/two-factor authentication is required!".
Proof.
  split; [right; reflexivity|].
  apply (C2_noninteractive_challenge_is_raised
           Scripted.env (Scripted.legacy_with [Scripted.iphone])
           icloudpd_logger (Scripted.start Scripted.quiet)).
  right; reflexivity.
Defined.

(** C3 as the claim words it fails in non-interactive mode: with both
    facets set the run stops at the raise, the two-factor flow is not
    resolved (no code is asked for and none is validated). *)
Lemma C3_counterexample :
  requires_2fa Scripted.env Scripted.both Scripted.code_accepted = true
  ∧ requires_2sa Scripted.env Scripted.both Scripted.code_accepted = true
  ∧ completeAuthentication Scripted.env true Scripted.both icloudpd_logger
      (Scripted.start Scripted.code_accepted)
    = (Raised (TwoStepAuthRequiredError
                 "Two-factor authentication is required!"),
       mkSt Scripted.code_accepted [EvRequires2fa])
  ∧ count is_prompt
      (trace (completeAuthentication Scripted.env true Scripted.both
                icloudpd_logger (Scripted.start Scripted.code_accepted)).2)
    = 0%nat
  ∧ count is_strong_flow
      (trace (completeAuthentication Scripted.env true Scripted.both
                icloudpd_logger (Scripted.start Scripted.code_accepted)).2)
    = 0%nat.
Proof. repeat split. Qed.

(** C3 (as amended) on the scripted world, interactive mode. *)
Lemma C3_witness :
  requires_2fa Scripted.env Scripted.both Scripted.code_accepted = true
  ∧ requires_2sa Scripted.env Scripted.both Scripted.code_accepted = true
  ∧ ∃ (out : Outcome Scripted.Sess) (st' : St Scripted.Script)
      (delta : list Event),
      completeAuthentication Scripted.env false Scripted.both icloudpd_logger
        (Scripted.start Scripted.code_accepted) = (out, st')
      ∧ trace st' = [] ++ delta
      ∧ count is_legacy delta = 0%nat
      ∧ (false = true →
         out = Raised (TwoStepAuthRequiredError
                         "Two-factor authentication is required!")
         ∧ world st' = Scripted.code_accepted
         ∧ delta = [EvRequires2fa])
      ∧ (false = false →
         out = Returned Scripted.both
         ∧ world st' = Scripted.quiet
         ∧ delta = [EvRequires2fa;
                    EvLog INFO "Two-factor authentication is required!";
                    EvPrompt "Please enter two-factor authentication code"
                             false;
                    EvValidate2fa "123456";
                    EvLog INFO msg_2fa_done]).
Proof.
  split; [reflexivity|]. split; [reflexivity|].
  apply (C3_two_factor_takes_precedence
           Scripted.env false Scripted.both icloudpd_logger
           (Scripted.start Scripted.code_accepted)
           "123456" (snd (Scripted.next_typed Scripted.code_accepted))
           true Scripted.quiet); reflexivity.
Defined.

(** ** The two verification flows *)

Section Flows.
Context {W Session : Type} (env : Collaborators W Session).

(** C4. Neither flow survives a refused call.  (1) When delivery to the
    chosen device is refused, [request_2sa] logs the error and raises
    [SystemExit(1)]; delivery was attempted once and the code is never
    asked for.  (2) When validation is refused in [request_2sa], however
    the device was settled, and (3) when it is refused in [request_2fa],
    the flow logs the error and raises [SystemExit(1)] after that single
    attempt. *)
Theorem C4_refused_delivery_or_validation_is_fatal :
  (∀ icloud logger (st : St W) devices index w1 device w2,
     trusted_devices env icloud (world st) = devices →
     devices ≠ [] →
     click_prompt_int env "Please choose an option:" 0 0
       (Z.of_nat (length devices)) (world st) = (index, w1) →
     index ≠ Z.of_nat (length devices) →
     py_getitem devices index = Some device →
     send_verification_code env icloud device w1 = (false, w2) →
     ∃ (code : Z) (delta : list Event),
       request_2sa env icloud logger st
       = (Raised (SystemExit code), mkSt w2 (trace st ++ delta))
       ∧ code = 1 ∧ code ≠ 0
       ∧ delta = EvTrustedDevices :: menu_events devices
                 ++ [selection_prompt devices; EvSendCode device;
                     EvLog ERROR
                       "Failed to send two-factor authentication code"]
       ∧ count is_text_prompt delta = 0%nat
       ∧ count is_send delta = 1%nat
       ∧ count is_validation delta = 0%nat)
  ∧ (∀ icloud logger (st : St W) device w evs code w1 w2,
       Selected env icloud st device w evs →
       click_prompt env "Please enter two-factor authentication code"
         false w = (code, w1) →
       validate_verification_code env icloud device code w1 = (false, w2) →
       ∃ (status : Z),
         request_2sa env icloud logger st
         = (Raised (SystemExit status),
            mkSt w2 (trace st ++ EvTrustedDevices :: evs
                     ++ [EvPrompt
                           "Please enter two-factor authentication code"
                           false;
                         EvValidateCode device code;
                         EvLog ERROR
                           "Failed to verify two-factor authentication code"]))
         ∧ status = 1 ∧ status ≠ 0
         ∧ count is_validation evs = 0%nat)
  ∧ (∀ icloud logger (st : St W) code w1 w2,
       click_prompt env "Please enter two-factor authentication code"
         false (world st) = (code, w1) →
       validate_2fa_code env icloud code w1 = (false, w2) →
       ∃ (status : Z),
         request_2fa env icloud logger st
         = (Raised (SystemExit status),
            mkSt w2 (trace st
                     ++ [EvPrompt
                           "Please enter two-factor authentication code"
                           false;
                         EvValidate2fa code;
                         EvLog ERROR
                           "Failed to verify two-factor authentication code"]))
         ∧ status = 1 ∧ status ≠ 0).
Proof.
  split; [|split].
  - intros icloud logger st devices index w1 device w2 Hd Hne Hc Hi Hg Hs.
    exists 1. eexists.
    split; [|split; [done|split; [done|split; [reflexivity|]]]].
    + by erewrite request_2sa_delivery_failed by eassumption.
    + rewrite !count_cons, !count_app, !count_cons, count_nil.
      rewrite !count_menu by done. by simpl.
  - intros icloud logger st device w evs code w1 w2 Hsel Hp Hv.
    exists 1. split; [|split; [done|split; [done|]]].
    + by erewrite request_2sa_run by eassumption.
    + destruct Hsel; rewrite ?count_app, ?count_cons, ?count_nil;
        rewrite ?count_menu by done; done.
  - intros icloud logger st code w1 w2 Hp Hv.
    exists 1. split; [|done].
    by erewrite request_2fa_run by eassumption.
Qed.

End Flows.

Section LegacyFlow.
Context {W Session : Type} (env : Collaborators W Session).

Lemma py_getitem_in_range {A} (l : list A) (i : Z) :
  0 ≤ i < Z.of_nat (length l) →
  ∃ x, l !! Z.to_nat i = Some x ∧ py_getitem l i = Some x.
Proof.
  intros [Hlo Hhi]. unfold py_getitem.
  apply Z.leb_le in Hlo as Hlo'. rewrite Hlo'.
  destruct (l !! Z.to_nat i) as [x|] eqn:Hx; [by exists x|].
  apply lookup_ge_None in Hx. lia.
Qed.

(** C5. After the trusted devices have been read: with an empty list
    nothing is delivered; with a non-empty list, the answer that equals
    the length of the list (the extra entry of the menu) leads straight
    to the code prompt, which is asked in the very world the selection
    prompt left, so [send_verification_code] has not been called; while an
    answer that addresses a device of the list makes
    [send_verification_code] be called for exactly that device, once,
    after the menu and the selection prompt and before any code is asked
    for: the code prompt is asked in the world that call left, and when
    the call is refused the run ends there. *)
Theorem C5_delivery_exactly_for_a_listed_device
    icloud logger (st : St W) devices :
  trusted_devices env icloud (world st) = devices →
  (devices = [] →
   ∃ (code : string) (w1 : W) (ok : bool) (w2 : W),
     click_prompt env "Please enter two-factor authentication code" false
       (world st) = (code, w1)
     ∧ validate_verification_code env icloud ∅ code w1 = (ok, w2)
     ∧ request_2sa env icloud logger st
       = (if ok then Returned tt else Raised (SystemExit 1),
          mkSt w2
            (trace st
             ++ [EvTrustedDevices;
                 EvPrompt "Please enter two-factor authentication code"
                          false;
                 EvValidateCode ∅ code;
                 EvLog (if ok then INFO else ERROR)
                       (if ok then msg_2sa_done
                        else "Failed to verify two-factor authentication code")])))
  ∧ (∀ index w1,
       devices ≠ [] →
       click_prompt_int env "Please choose an option:" 0 0
         (Z.of_nat (length devices)) (world st) = (index, w1) →
       (index = Z.of_nat (length devices) →
        ∃ (code : string) (w2 : W) (ok : bool) (w3 : W),
          click_prompt env "Please enter two-factor authentication code"
            false w1 = (code, w2)
          ∧ validate_verification_code env icloud ∅ code w2 = (ok, w3)
          ∧ request_2sa env icloud logger st
            = (if ok then Returned tt else Raised (SystemExit 1),
               mkSt w3
                 (trace st ++ EvTrustedDevices :: menu_events devices
                  ++ [selection_prompt devices;
                      EvPrompt "Please enter two-factor authentication code"
                               false;
                      EvValidateCode ∅ code;
                      EvLog (if ok then INFO else ERROR)
                            (if ok then msg_2sa_done
                             else "Failed to verify two-factor authentication code")]))
          ∧ count is_send (menu_events devices) = 0%nat)
       ∧ (0 ≤ index < Z.of_nat (length devices) →
          ∃ (device : Device) (delivered : bool) (w2 : W),
            devices !! Z.to_nat index = Some device
            ∧ send_verification_code env icloud device w1 = (delivered, w2)
            ∧ count is_text_prompt
                (EvTrustedDevices :: menu_events devices
                 ++ [selection_prompt devices]) = 0%nat
            ∧ count is_send
                (EvTrustedDevices :: menu_events devices
                 ++ [selection_prompt devices]) = 0%nat
            ∧ if delivered
              then
                ∃ (code : string) (w3 : W) (ok : bool) (w4 : W),
                  click_prompt env
                    "Please enter two-factor authentication code" false w2
                  = (code, w3)
                  ∧ validate_verification_code env icloud device code w3
                    = (ok, w4)
                  ∧ request_2sa env icloud logger st
                    = (if ok then Returned tt else Raised (SystemExit 1),
                       mkSt w4
                         (trace st ++ EvTrustedDevices :: menu_events devices
                          ++ [selection_prompt devices;
                              EvSendCode device;
                              EvPrompt
                                "Please enter two-factor authentication code"
                                false;
                              EvValidateCode device code;
                              EvLog (if ok then INFO else ERROR)
                                    (if ok then msg_2sa_done
                                     else "Failed to verify two-factor authentication code")]))
              else
                request_2sa env icloud logger st
                = (Raised (SystemExit 1),
                   mkSt w2
                     (trace st ++ EvTrustedDevices :: menu_events devices
                      ++ [selection_prompt devices;
                          EvSendCode device;
                          EvLog ERROR
                            "Failed to send two-factor authentication code"])))).
Proof.
  intros Hd. split.
  - intros Hnil. subst devices.
    destruct (click_prompt env msg_code_prompt false (world st))
      as [code w1] eqn:Hp.
    destruct (validate_verification_code env icloud ∅ code w1)
      as [ok w2] eqn:Hv.
    exists code, w1, ok, w2. split; [done|]. split; [done|].
    by erewrite request_2sa_run
      by (try eapply selected_no_devices; eassumption).
  - intros index w1 Hne Hc. split.
    + intros ->.
      destruct (click_prompt env msg_code_prompt false w1)
        as [code w2] eqn:Hp.
      destruct (validate_verification_code env icloud ∅ code w2)
        as [ok w3] eqn:Hv.
      exists code, w2, ok, w3. split; [done|]. split; [done|].
      split; [|by apply count_menu].
      erewrite request_2sa_run
        by (try eapply selected_already_received; eassumption).
      by norm_trace.
    + intros Hrange.
      destruct (py_getitem_in_range devices index Hrange)
        as (device & Hlook & Hget).
      assert (index ≠ Z.of_nat (length devices)) as Hi by lia.
      destruct (send_verification_code env icloud device w1)
        as [delivered w2] eqn:Hs.
      exists device, delivered, w2.
      split; [done|]. split; [done|].
      split; [by rewrite count_cons, count_app, count_menu by done|].
      split; [by rewrite count_cons, count_app, count_menu by done|].
      destruct delivered.
      * destruct (click_prompt env msg_code_prompt false w2)
          as [code w3] eqn:Hp.
        destruct (validate_verification_code env icloud device code w3)
          as [ok w4] eqn:Hv.
        exists code, w3, ok, w4. split; [done|]. split; [done|].
        erewrite request_2sa_run
          by (try eapply selected_delivered; eassumption).
        by norm_trace.
      * by erewrite request_2sa_delivery_failed by eassumption.
Qed.

(** C6. With no trusted device the run of [request_2sa] is: read the
    list, ask for the code, validate it against the empty dict.  Nothing
    is printed, no choice is asked for, nothing is delivered. *)
Theorem C6_no_devices_validates_against_empty_dict
    icloud logger (st : St W) code w1 ok w2 :
  trusted_devices env icloud (world st) = [] →
  click_prompt env "Please enter two-factor authentication code" false
    (world st) = (code, w1) →
  validate_verification_code env icloud ∅ code w1 = (ok, w2) →
  ∃ delta : list Event,
    request_2sa env icloud logger st
    = (if ok then Returned tt else Raised (SystemExit 1),
       mkSt w2 (trace st ++ delta))
    ∧ delta = [EvTrustedDevices;
               EvPrompt "Please enter two-factor authentication code" false;
               EvValidateCode ∅ code;
               EvLog (if ok then INFO else ERROR)
                     (if ok then msg_2sa_done
                      else "Failed to verify two-factor authentication code")]
    ∧ count is_menu delta = 0%nat
    ∧ count is_send delta = 0%nat.
Proof.
  intros Hd Hp Hv. eexists. split; [|split; [reflexivity|]].
  - by erewrite request_2sa_run
      by (try eapply selected_no_devices; eassumption).
  - by destruct ok.
Qed.

(** C7 (as amended).  For a non-empty list [request_2sa] prints, after
    reading the list, one line per device in list order, numbered from
    0 and indented by two blanks, showing the value under the key
    [deviceName] when the device has one and otherwise ["SMS to "]
    followed by the value under [phoneNumber] ([None] when that is
    missing too); then one more line numbered with the length of the
    list and labeled ["Enter two-factor authentication code"]; then it
    asks for an integer with default 0 in the range from 0 to the length
    of the list, both included. *)
Theorem C7_device_menu icloud logger (st : St W) devices :
  trusted_devices env icloud (world st) = devices →
  devices ≠ [] →
  ∃ tail : list Event,
    trace (request_2sa env icloud logger st).2
    = trace st
      ++ EvTrustedDevices
      :: imap (λ i d,
                 EvPrint ("  " +:+ pretty i +:+ ": " +:+
                          match d !! "deviceName" with
                          | Some name => name
                          | None =>
                              "SMS to " +:+ py_str (d !! "phoneNumber")
                          end)) devices
      ++ [EvPrint ("  " +:+ pretty (length devices)
                   +:+ ": Enter two-factor authentication code");
          EvPromptInt "Please choose an option:" 0 0
                      (Z.of_nat (length devices))]
      ++ tail.
Proof.
  intros Hd Hne.
  destruct (request_2sa_menu_first env icloud logger st devices Hd Hne)
    as [tail Ht].
  exists tail. rewrite Ht. unfold menu_events, selection_prompt.
  by norm_trace.
Qed.

End LegacyFlow.

(** C4 on the scripted world: a refused delivery to the second device, a
    refused validation after a delivery, and a refused two-factor code. *)
Lemma C4_witness :
  request_2sa Scripted.env
    (Scripted.legacy_with [Scripted.iphone; Scripted.sms]) icloudpd_logger
    (Scripted.start (Scripted.choose 1 false true))
  = (Raised (SystemExit 1),
     mkSt (snd (Scripted.next_delivery
                  (snd (Scripted.next_chosen 0
                          (Scripted.choose 1 false true)))))
          [EvTrustedDevices;
           EvPrint "  0: iPhone";
           EvPrint "  1: SMS to +15551234";
           EvPrint "  2: Enter two-factor authentication code";
           EvPromptInt "Please choose an option:" 0 0 2;
           EvSendCode Scripted.sms;
           EvLog ERROR "Failed to send two-factor authentication code"])
  ∧ (request_2sa Scripted.env
       (Scripted.legacy_with [Scripted.iphone; Scripted.sms]) icloudpd_logger
       (Scripted.start (Scripted.choose 0 true false))).1
    = Raised (SystemExit 1)
  ∧ (request_2fa Scripted.env Scripted.strong_only icloudpd_logger
       (Scripted.start Scripted.code_refused)).1
    = Raised (SystemExit 1).
Proof.
  destruct (C4_refused_delivery_or_validation_is_fatal Scripted.env)
    as (Hsend & H2sa & H2fa).
  split; [|split].
  - destruct (Hsend (Scripted.legacy_with [Scripted.iphone; Scripted.sms])
                icloudpd_logger
                (Scripted.start (Scripted.choose 1 false true))
                [Scripted.iphone; Scripted.sms] 1
                (snd (Scripted.next_chosen 0 (Scripted.choose 1 false true)))
                Scripted.sms
                (snd (Scripted.next_delivery
                        (snd (Scripted.next_chosen 0
                                (Scripted.choose 1 false true))))))
      as (code & delta & Hrun & Hcode & _ & Hdelta & _);
      [reflexivity | done | reflexivity | done | reflexivity | reflexivity |].
    rewrite Hrun, Hcode, Hdelta. reflexivity.
  - destruct (H2sa (Scripted.legacy_with [Scripted.iphone; Scripted.sms])
                icloudpd_logger
                (Scripted.start (Scripted.choose 0 true false))
                Scripted.iphone
                (snd (Scripted.next_delivery
                        (snd (Scripted.next_chosen 0
                                (Scripted.choose 0 true false)))))
                (menu_events [Scripted.iphone; Scripted.sms]
                 ++ [selection_prompt [Scripted.iphone; Scripted.sms];
                     EvSendCode Scripted.iphone])
                "123456"
                (snd (Scripted.next_typed
                        (snd (Scripted.next_delivery
                                (snd (Scripted.next_chosen 0
                                        (Scripted.choose 0 true false)))))))
                Scripted.quiet)
      as (status & Hrun & Hstatus & _);
      [ eapply (selected_delivered Scripted.env _ _
                  [Scripted.iphone; Scripted.sms] 0);
        [reflexivity | done | reflexivity | done | reflexivity | reflexivity]
      | reflexivity | reflexivity |].
    rewrite Hrun, Hstatus. reflexivity.
  - destruct (H2fa Scripted.strong_only icloudpd_logger
                (Scripted.start Scripted.code_refused) "123456"
                (snd (Scripted.next_typed Scripted.code_refused))
                Scripted.quiet)
      as (status & Hrun & Hstatus & _); [reflexivity | reflexivity |].
    rewrite Hrun, Hstatus. reflexivity.
Defined.

(** C5 on the scripted world: choosing device 1 of two delivers to it
    before the code is asked for; choosing entry 2 delivers nothing and
    leaves the delivery script untouched. *)
Lemma C5_witness :
  request_2sa Scripted.env
    (Scripted.legacy_with [Scripted.iphone; Scripted.sms]) icloudpd_logger
    (Scripted.start (Scripted.choose 1 true true))
  = (Returned tt,
     mkSt Scripted.quiet
       [EvTrustedDevices;
        EvPrint "  0: iPhone";
        EvPrint "  1: SMS to +15551234";
        EvPrint "  2: Enter two-factor authentication code";
        EvPromptInt "Please choose an option:" 0 0 2;
        EvSendCode Scripted.sms;
        EvPrompt "Please enter two-factor authentication code" false;
        EvValidateCode Scripted.sms "123456";
        EvLog INFO msg_2sa_done])
  ∧ request_2sa Scripted.env
      (Scripted.legacy_with [Scripted.iphone; Scripted.sms]) icloudpd_logger
      (Scripted.start (Scripted.choose 2 true true))
    = (Returned tt,
       mkSt {| Scripted.opens := []; Scripted.typed := [];
               Scripted.chosen := []; Scripted.deliveries := [true];
               Scripted.validations := [] |}
         [EvTrustedDevices;
          EvPrint "  0: iPhone";
          EvPrint "  1: SMS to +15551234";
          EvPrint "  2: Enter two-factor authentication code";
          EvPromptInt "Please choose an option:" 0 0 2;
          EvPrompt "Please enter two-factor authentication code" false;
          EvValidateCode ∅ "123456";
          EvLog INFO msg_2sa_done]).
Proof.
  split.
  - destruct (C5_delivery_exactly_for_a_listed_device Scripted.env
                (Scripted.legacy_with [Scripted.iphone; Scripted.sms])
                icloudpd_logger
                (Scripted.start (Scripted.choose 1 true true))
                [Scripted.iphone; Scripted.sms] eq_refl) as [_ Hchoice].
    destruct (Hchoice 1 (snd (Scripted.next_chosen 0
                                (Scripted.choose 1 true true))))
      as [_ Hreal]; [done | reflexivity |].
    destruct Hreal as (device & delivered & w2 & Hlook & Hsend & _ & _ & Hrun);
      [simpl; lia|].
    simpl in Hlook. injection Hlook as <-.
    vm_compute in Hsend. injection Hsend as <- <-.
    destruct Hrun as (code & w3 & ok & w4 & Hp & Hv & Hrun).
    vm_compute in Hp. injection Hp as <- <-.
    vm_compute in Hv. injection Hv as <- <-.
    rewrite Hrun. reflexivity.
  - destruct (C5_delivery_exactly_for_a_listed_device Scripted.env
                (Scripted.legacy_with [Scripted.iphone; Scripted.sms])
                icloudpd_logger
                (Scripted.start (Scripted.choose 2 true true))
                [Scripted.iphone; Scripted.sms] eq_refl) as [_ Hchoice].
    destruct (Hchoice 2 (snd (Scripted.next_chosen 0
                                (Scripted.choose 2 true true))))
      as [Hextra _]; [done | reflexivity |].
    destruct Hextra as (code & w2 & ok & w3 & Hp & Hv & Hrun & _);
      [reflexivity|].
    vm_compute in Hp. injection Hp as <- <-.
    vm_compute in Hv. injection Hv as <- <-.
    rewrite Hrun. reflexivity.
Defined.

(** C6 on the scripted world: a two-step session without devices. *)
Lemma C6_witness :
  trusted_devices Scripted.env (Scripted.legacy_with [])
    Scripted.code_accepted = []
  ∧ request_2sa Scripted.env (Scripted.legacy_with []) icloudpd_logger
      (Scripted.start Scripted.code_accepted)
    = (Returned tt,
       mkSt Scripted.quiet
            [EvTrustedDevices;
             EvPrompt "Please enter two-factor authentication code" false;
             EvValidateCode ∅ "123456";
             EvLog INFO msg_2sa_done]).
Proof.
  split; [reflexivity|].
  destruct (C6_no_devices_validates_against_empty_dict Scripted.env
              (Scripted.legacy_with []) icloudpd_logger
              (Scripted.start Scripted.code_accepted) "123456"
              (snd (Scripted.next_typed Scripted.code_accepted))
              true Scripted.quiet)
    as (delta & Hrun & Hdelta & _);
    [reflexivity | reflexivity | reflexivity |].
  rewrite Hrun, Hdelta. reflexivity.
Defined.

(** C7: what the menu looks like for an iPhone and an SMS number.  The
    last entry reads ["Enter two-factor authentication code"], not the
    label of the claim, with or without the indentation; and a device that
    carries its name under [displayName] is not shown by that name. *)
Lemma C7_counterexample :
  printed (trace (request_2sa Scripted.env
                    (Scripted.legacy_with [Scripted.iphone; Scripted.sms])
                    icloudpd_logger
                    (Scripted.start (Scripted.choose 2 true true))).2)
  = ["  0: iPhone"; "  1: SMS to +15551234";
     "  2: Enter two-factor authentication code"]
  ∧ printed (trace (request_2sa Scripted.env
                      (Scripted.legacy_with [Scripted.iphone; Scripted.sms])
                      icloudpd_logger
                      (Scripted.start (Scripted.choose 2 true true))).2)
    ≠ ["0: iPhone"; "1: SMS to +15551234";
       "2: enter code already received automatically"]
  ∧ printed (trace (request_2sa Scripted.env
                      (Scripted.legacy_with [Scripted.iphone; Scripted.sms])
                      icloudpd_logger
                      (Scripted.start (Scripted.choose 2 true true))).2)
    ≠ ["  0: iPhone"; "  1: SMS to +15551234";
       "  2: enter code already received automatically"]
  ∧ printed (trace (request_2sa Scripted.env
                      (Scripted.legacy_with
                         [Scripted.iphone_by_display_name; Scripted.sms])
                      icloudpd_logger
                      (Scripted.start (Scripted.choose 2 true true))).2)
    = ["  0: SMS to None"; "  1: SMS to +15551234";
       "  2: Enter two-factor authentication code"].
Proof.
  split; [reflexivity|]. split; [|split; [|reflexivity]].
  - intros H. vm_compute in H. discriminate H.
  - intros H. vm_compute in H. discriminate H.
Qed.

(** C7 (as amended) on the scripted world. *)
Lemma C7_witness :
  trusted_devices Scripted.env
    (Scripted.legacy_with [Scripted.iphone; Scripted.sms])
    (Scripted.choose 0 true true) = [Scripted.iphone; Scripted.sms]
  ∧ [Scripted.iphone; Scripted.sms] ≠ []
  ∧ ∃ tail : list Event,
      trace (request_2sa Scripted.env
               (Scripted.legacy_with [Scripted.iphone; Scripted.sms])
               icloudpd_logger
               (Scripted.start (Scripted.choose 0 true true))).2
      = [EvTrustedDevices;
         EvPrint "  0: iPhone";
         EvPrint "  1: SMS to +15551234";
         EvPrint "  2: Enter two-factor authentication code";
         EvPromptInt "Please choose an option:" 0 0 2] ++ tail.
Proof.
  split; [reflexivity|]. split; [done|].
  destruct (C7_device_menu Scripted.env
              (Scripted.legacy_with [Scripted.iphone; Scripted.sms])
              icloudpd_logger
              (Scripted.start (Scripted.choose 0 true true))
              [Scripted.iphone; Scripted.sms] eq_refl)
    as [tail Htrace]; [done|].
  exists tail. rewrite Htrace. reflexivity.
Defined.

(** ** Opening the session *)

Section Bootstrap.
Context {W Session : Type} (env : Collaborators W Session).
Variables (domain username : string) (cookie_directory : option string)
          (raise_error_on_2sa : bool) (client_id : option string)
          (china_mainland : bool).

(** C1 (what the code does where the claim fails).  Let the first call
    of the constructor raise "no stored password" and let every later
    call return a session.  Then the password is asked for once, but the
    constructor is called twice more: once in the handler, with username
    and typed password as the only positional arguments, and, because
    the handler does not leave the loop, once more by the [try] body
    with domain, username and the typed password.  The session of the
    handler's call is dropped; the one of the third call is returned. *)
Theorem C1_two_opens_follow_the_prompt
    fuel password (st : St W) w1 typed w2 icloud2 w3 icloud3 w4 :
  PyiCloudService env
    (try_args domain username cookie_directory client_id china_mainland
              password) (world st)
  = (inl PyiCloudNoStoredPasswordAvailableException, w1) →
  click_prompt env "iCloud Password" true w1 = (typed, w2) →
  PyiCloudService env
    (except_args username cookie_directory client_id china_mainland typed)
    w2 = (inr icloud2, w3) →
  PyiCloudService env
    (try_args domain username cookie_directory client_id china_mainland
              (PyStr typed)) w3
  = (inr icloud3, w4) →
  ∃ after_prompt : list Event,
    bootstrap env domain username cookie_directory client_id china_mainland
      (S (S fuel)) password st
    = (Returned icloud3,
       mkSt w4
         (trace st
          ++ [EvOpenSession
                {| positional := [PyStr domain; PyStr username; password];
                   kw_cookie_directory := cookie_directory;
                   kw_client_id := client_id;
                   kw_china_mainland := china_mainland |};
              EvPrompt "iCloud Password" true]
          ++ after_prompt))
    ∧ after_prompt
      = [EvOpenSession
           {| positional := [PyStr username; PyStr typed];
              kw_cookie_directory := cookie_directory;
              kw_client_id := client_id;
              kw_china_mainland := china_mainland |};
         EvOpenSession
           {| positional := [PyStr domain; PyStr username; PyStr typed];
              kw_cookie_directory := cookie_directory;
              kw_client_id := client_id;
              kw_china_mainland := china_mainland |}]
    ∧ count is_open after_prompt = 2%nat
    ∧ count is_prompt after_prompt = 0%nat.
Proof.
  intros H1 Hp H2 H3. eexists. split; [|split; [reflexivity|done]].
  erewrite bootstrap_handler_returned by eassumption.
  erewrite bootstrap_break by (simpl; eassumption).
  by norm_trace.
Qed.

(** C8. A failure of the session constructor that is not the "no stored
    password" class passes through untouched.  On any pass through the
    loop, when the [try] call fails that way, the loop ends with this
    very exception right after that call: no prompt, no further call;
    and so does [authenticate_] as a whole when it is the first call.
    A failure of the call inside the handler is not caught either,
    whatever its class. *)
Theorem C8_other_failures_pass_through :
  (∀ fuel password (st : St W) e w,
     PyiCloudService env
       (try_args domain username cookie_directory client_id china_mainland
                 password) (world st) = (inl e, w) →
     e ≠ PyiCloudNoStoredPasswordAvailableException →
     bootstrap env domain username cookie_directory client_id china_mainland
       (S fuel) password st
     = (Raised e,
        mkSt w
          (trace st
           ++ [EvOpenSession
                 {| positional := [PyStr domain; PyStr username; password];
                    kw_cookie_directory := cookie_directory;
                    kw_client_id := client_id;
                    kw_china_mainland := china_mainland |}]))
     ∧ authenticate_ env domain username cookie_directory
         raise_error_on_2sa client_id china_mainland (S fuel) password st
       = (Raised e,
          mkSt w
            (trace st
             ++ [EvLog DEBUG "Authenticating...";
                 EvOpenSession
                   {| positional :=
                        [PyStr domain; PyStr username; password];
                      kw_cookie_directory := cookie_directory;
                      kw_client_id := client_id;
                      kw_china_mainland := china_mainland |}])))
  ∧ (∀ fuel password (st : St W) w1 typed w2 e w3,
       PyiCloudService env
         (try_args domain username cookie_directory client_id
                   china_mainland password) (world st)
       = (inl PyiCloudNoStoredPasswordAvailableException, w1) →
       click_prompt env "iCloud Password" true w1 = (typed, w2) →
       PyiCloudService env
         (except_args username cookie_directory client_id china_mainland
                      typed) w2 = (inl e, w3) →
       bootstrap env domain username cookie_directory client_id
         china_mainland (S fuel) password st
       = (Raised e,
          mkSt w3
            (trace st
             ++ [EvOpenSession
                   {| positional :=
                        [PyStr domain; PyStr username; password];
                      kw_cookie_directory := cookie_directory;
                      kw_client_id := client_id;
                      kw_china_mainland := china_mainland |};
                 EvPrompt "iCloud Password" true;
                 EvOpenSession
                   {| positional := [PyStr username; PyStr typed];
                      kw_cookie_directory := cookie_directory;
                      kw_client_id := client_id;
                      kw_china_mainland := china_mainland |}]))).
Proof.
  split.
  - intros fuel password st e w H Hne.
    assert (bootstrap env domain username cookie_directory client_id
              china_mainland (S fuel) password st
            = (Raised e,
               mkSt w (trace st
                       ++ [EvOpenSession
                             (try_args domain username cookie_directory
                                client_id china_mainland password)])))
      as Hb by (by apply bootstrap_uncaught).
    split; [exact Hb|].
    unfold authenticate_.
    unfold bind at 1. simpl. unfold bind at 1. simpl.
    erewrite bind_raised by (apply bootstrap_uncaught; simpl; eassumption).
    by norm_trace.
  - intros fuel password st w1 typed w2 e w3 H1 Hp H2.
    by erewrite bootstrap_handler_raised by eassumption.
Qed.

(** C10. When the [try] call raised "no stored password" and a password
    was typed, the next thing that happens is the handler's call of the
    constructor, made in the world the prompt left, and that call has two
    positional arguments only: the username where the [try] call has the
    domain, and the typed password where it has the username.  It is
    therefore not the [try] call with just the password replaced.  What
    the constructor answers to these arguments decides how the loop goes
    on: its exception leaves the function, its session is dropped and the
    next pass starts in the world that call left. *)
Theorem C10_handler_call_omits_the_domain
    fuel password (st : St W) w1 typed w2 r w3 :
  PyiCloudService env
    (try_args domain username cookie_directory client_id china_mainland
              password) (world st)
  = (inl PyiCloudNoStoredPasswordAvailableException, w1) →
  click_prompt env "iCloud Password" true w1 = (typed, w2) →
  PyiCloudService env
    {| positional := [PyStr username; PyStr typed];
       kw_cookie_directory := cookie_directory;
       kw_client_id := client_id;
       kw_china_mainland := china_mainland |} w2
  = (r, w3) →
  ∃ (first retry : OpenArgs) (tail : list Event),
    trace (bootstrap env domain username cookie_directory client_id
             china_mainland (S fuel) password st).2
    = trace st
      ++ [EvOpenSession first; EvPrompt "iCloud Password" true;
          EvOpenSession retry] ++ tail
    ∧ bootstrap env domain username cookie_directory client_id
        china_mainland (S fuel) password st
      = match r with
        | inl e =>
            (Raised e,
             mkSt w3
               (trace st
                ++ [EvOpenSession first; EvPrompt "iCloud Password" true;
                    EvOpenSession retry]))
        | inr _ =>
            bootstrap env domain username cookie_directory client_id
              china_mainland fuel (PyStr typed)
              (mkSt w3
                 (trace st
                  ++ [EvOpenSession first; EvPrompt "iCloud Password" true;
                      EvOpenSession retry]))
        end
    ∧ first = {| positional := [PyStr domain; PyStr username; password];
                 kw_cookie_directory := cookie_directory;
                 kw_client_id := client_id;
                 kw_china_mainland := china_mainland |}
    ∧ retry = {| positional := [PyStr username; PyStr typed];
                 kw_cookie_directory := cookie_directory;
                 kw_client_id := client_id;
                 kw_china_mainland := china_mainland |}
    ∧ positional first !! 0%nat = Some (PyStr domain)
    ∧ positional retry !! 0%nat = Some (PyStr username)
    ∧ positional first !! 1%nat = Some (PyStr username)
    ∧ positional retry !! 1%nat = Some (PyStr typed)
    ∧ retry ≠ {| positional := [PyStr domain; PyStr username; PyStr typed];
                 kw_cookie_directory := cookie_directory;
                 kw_client_id := client_id;
                 kw_china_mainland := china_mainland |}.
Proof.
  intros H1 Hp H2.
  exists (try_args domain username cookie_directory client_id
            china_mainland password),
         (except_args username cookie_directory client_id china_mainland
            typed).
  destruct r as [e|icloud].
  - exists []. erewrite bootstrap_handler_raised by eassumption.
    repeat split; try done.
  - erewrite bootstrap_handler_returned by eassumption.
    destruct (bootstrap_extends env domain username cookie_directory
                client_id china_mainland fuel (PyStr typed)
                (mkSt w3
                   (trace st
                    ++ [EvOpenSession
                          (try_args domain username cookie_directory
                             client_id china_mainland password);
                        EvPrompt "iCloud Password" true;
                        EvOpenSession
                          (except_args username cookie_directory client_id
                             china_mainland typed)])))
      as [tail Ht].
    exists tail. rewrite Ht. simpl.
    repeat split; try done.
    by rewrite <- app_assoc.
Qed.

End Bootstrap.

(** C1 on the scripted world: the keyring is empty, the human types
    ["hunter2"], every later call of the constructor succeeds.  Three
    calls of the constructor are made, two of them after the prompt. *)
Lemma C1_witness :
  bootstrap Scripted.env "cn" "user@example.com" None None true 2 PyNone
    (Scripted.start Scripted.no_stored_password_once)
  = (Returned Scripted.plain,
     mkSt Scripted.quiet
       [EvOpenSession
          {| positional := [PyStr "cn"; PyStr "user@example.com"; PyNone];
             kw_cookie_directory := None; kw_client_id := None;
             kw_china_mainland := true |};
        EvPrompt "iCloud Password" true;
        EvOpenSession
          {| positional := [PyStr "user@example.com"; PyStr "hunter2"];
             kw_cookie_directory := None; kw_client_id := None;
             kw_china_mainland := true |};
        EvOpenSession
          {| positional :=
               [PyStr "cn"; PyStr "user@example.com"; PyStr "hunter2"];
             kw_cookie_directory := None; kw_client_id := None;
             kw_china_mainland := true |}])
  ∧ count is_open
      (trace (bootstrap Scripted.env "cn" "user@example.com" None None true
                2 PyNone
                (Scripted.start Scripted.no_stored_password_once)).2)
    = 3%nat.
Proof.
  destruct (C1_two_opens_follow_the_prompt Scripted.env
              "cn" "user@example.com" None None true 0%nat PyNone
              (Scripted.start Scripted.no_stored_password_once)
              (snd (Scripted.next_open Scripted.no_stored_password_once))
              "hunter2"
              (snd (Scripted.next_typed
                      (snd (Scripted.next_open
                              Scripted.no_stored_password_once))))
              Scripted.plain
              (snd (Scripted.next_open
                      (snd (Scripted.next_typed
                              (snd (Scripted.next_open
                                      Scripted.no_stored_password_once))))))
              Scripted.plain Scripted.quiet)
    as (after_prompt & Hrun & Hafter & _);
    [reflexivity | reflexivity | reflexivity | reflexivity |].
  rewrite Hrun, Hafter. split; reflexivity.
Defined.

(** C8 on the scripted world: a rejected login on the first call, and a
    rejected login on the call made by the handler. *)
Lemma C8_witness :
  authenticate_ Scripted.env "cn" "user@example.com" None false None true
    1 (PyStr "hunter1") (Scripted.start Scripted.login_rejected)
  = (Raised (OtherError "PyiCloudFailedLoginException"
                        "Invalid email/password combination."),
     mkSt (snd (Scripted.next_open Scripted.login_rejected))
       [EvLog DEBUG "Authenticating...";
        EvOpenSession
          {| positional :=
               [PyStr "cn"; PyStr "user@example.com"; PyStr "hunter1"];
             kw_cookie_directory := None; kw_client_id := None;
             kw_china_mainland := true |}])
  ∧ (bootstrap Scripted.env "cn" "user@example.com" None None true 1 PyNone
       (Scripted.start Scripted.rejected_after_prompt)).1
    = Raised (OtherError "PyiCloudFailedLoginException"
                         "Invalid email/password combination.").
Proof.
  destruct (C8_other_failures_pass_through Scripted.env
              "cn" "user@example.com" None false None true)
    as [Htry Hhandler].
  split.
  - apply (Htry 0%nat (PyStr "hunter1")
             (Scripted.start Scripted.login_rejected)
             (OtherError "PyiCloudFailedLoginException"
                         "Invalid email/password combination.")
             (snd (Scripted.next_open Scripted.login_rejected)));
      [reflexivity | done].
  - rewrite (Hhandler 0%nat PyNone
               (Scripted.start Scripted.rejected_after_prompt)
               (snd (Scripted.next_open Scripted.rejected_after_prompt))
               "hunter2"
               (snd (Scripted.next_typed
                       (snd (Scripted.next_open
                               Scripted.rejected_after_prompt))))
               (OtherError "PyiCloudFailedLoginException"
                           "Invalid email/password combination.")
               (snd (Scripted.next_open
                       (snd (Scripted.next_typed
                               (snd (Scripted.next_open
                                       Scripted.rejected_after_prompt)))))));
      reflexivity.
Defined.

(** C10 on the scripted world: the arguments of the second call, and the
    next pass starting where that call left the script. *)
Lemma C10_witness :
  (∃ tail : list Event,
     trace (bootstrap Scripted.env "cn" "user@example.com" None None true
              2 PyNone (Scripted.start Scripted.no_stored_password_once)).2
     = [EvOpenSession
          {| positional := [PyStr "cn"; PyStr "user@example.com"; PyNone];
             kw_cookie_directory := None; kw_client_id := None;
             kw_china_mainland := true |};
        EvPrompt "iCloud Password" true;
        EvOpenSession
          {| positional := [PyStr "user@example.com"; PyStr "hunter2"];
             kw_cookie_directory := None; kw_client_id := None;
             kw_china_mainland := true |}] ++ tail)
  ∧ bootstrap Scripted.env "cn" "user@example.com" None None true
      2 PyNone (Scripted.start Scripted.no_stored_password_once)
    = bootstrap Scripted.env "cn" "user@example.com" None None true
        1 (PyStr "hunter2")
        (mkSt {| Scripted.opens := [inr Scripted.plain];
                 Scripted.typed := []; Scripted.chosen := [];
                 Scripted.deliveries := []; Scripted.validations := [] |}
           [EvOpenSession
              {| positional := [PyStr "cn"; PyStr "user@example.com"; PyNone];
                 kw_cookie_directory := None; kw_client_id := None;
                 kw_china_mainland := true |};
            EvPrompt "iCloud Password" true;
            EvOpenSession
              {| positional := [PyStr "user@example.com"; PyStr "hunter2"];
                 kw_cookie_directory := None; kw_client_id := None;
                 kw_china_mainland := true |}]).
Proof.
  destruct (C10_handler_call_omits_the_domain Scripted.env
              "cn" "user@example.com" None None true 1%nat PyNone
              (Scripted.start Scripted.no_stored_password_once)
              (snd (Scripted.next_open Scripted.no_stored_password_once))
              "hunter2"
              (snd (Scripted.next_typed
                      (snd (Scripted.next_open
                              Scripted.no_stored_password_once))))
              (inr Scripted.plain)
              {| Scripted.opens := [inr Scripted.plain];
                 Scripted.typed := []; Scripted.chosen := [];
                 Scripted.deliveries := []; Scripted.validations := [] |})
    as (first & retry & tail & Htrace & Hrun & Hfirst & Hretry & _);
    [reflexivity | reflexivity | reflexivity |].
  split.
  - exists tail. rewrite Htrace, Hfirst, Hretry. reflexivity.
  - rewrite Hrun, Hfirst, Hretry. reflexivity.
Defined.

(** ** Further runs on the scripted world *)

(** The keyring is empty and the handler's own call raises "no stored
    password" as well: the exception leaves the loop, the password is not
    asked for a second time and the constructor is not called again. *)
Lemma second_no_stored_password_is_not_retried :
  bootstrap Scripted.env "cn" "user@example.com" None None true 5 PyNone
    (Scripted.start Scripted.no_stored_password_twice)
  = (Raised PyiCloudNoStoredPasswordAvailableException,
     mkSt {| Scripted.opens := [inr Scripted.plain];
             Scripted.typed := ["hunter3"];
             Scripted.chosen := [];
             Scripted.deliveries := [];
             Scripted.validations := [] |}
       [EvOpenSession
          {| positional := [PyStr "cn"; PyStr "user@example.com"; PyNone];
             kw_cookie_directory := None; kw_client_id := None;
             kw_china_mainland := true |};
        EvPrompt "iCloud Password" true;
        EvOpenSession
          {| positional := [PyStr "user@example.com"; PyStr "hunter2"];
             kw_cookie_directory := None; kw_client_id := None;
             kw_china_mainland := true |}]).
Proof. reflexivity. Qed.

(** The whole of [authenticate_] when the keyring is empty once and the
    session needs no verification. *)
Lemma authenticate_after_password_prompt :
  authenticate_ Scripted.env "cn" "user@example.com" None false None true
    2 PyNone (Scripted.start Scripted.no_stored_password_once)
  = (Returned Scripted.plain,
     mkSt Scripted.quiet
       [EvLog DEBUG "Authenticating...";
        EvOpenSession
          {| positional := [PyStr "cn"; PyStr "user@example.com"; PyNone];
             kw_cookie_directory := None; kw_client_id := None;
             kw_china_mainland := true |};
        EvPrompt "iCloud Password" true;
        EvOpenSession
          {| positional := [PyStr "user@example.com"; PyStr "hunter2"];
             kw_cookie_directory := None; kw_client_id := None;
             kw_china_mainland := true |};
        EvOpenSession
          {| positional :=
               [PyStr "cn"; PyStr "user@example.com"; PyStr "hunter2"];
             kw_cookie_directory := None; kw_client_id := None;
             kw_china_mainland := true |};
        EvRequires2fa;
        EvRequires2sa]).
Proof. reflexivity. Qed.

(** With one pass of fuel only, the same run is cut off after the handler:
    the loop has gone round. *)
Lemma authenticate_needs_second_pass :
  (authenticate_ Scripted.env "cn" "user@example.com" None false None true
     1 PyNone (Scripted.start Scripted.no_stored_password_once)).1
  = OutOfFuel.
Proof. reflexivity. Qed.

(** ** The loop, over all its runs *)

Section Loop.
Context {W Session : Type} (env : Collaborators W Session).
Variables (domain username : string) (cookie_directory : option string)
          (client_id : option string) (china_mainland : bool).

Local Abbreviation loop :=
  (bootstrap env domain username cookie_directory client_id china_mainland).
Local Abbreviation in_try :=
  (try_args domain username cookie_directory client_id china_mainland).
Local Abbreviation in_except :=
  (except_args username cookie_directory client_id china_mainland).

(** Induction along the passes of the loop: no fuel; [break]; an exception
    the handler does not catch; an exception raised by the handler; and
    the handler falling through into the next pass. *)
Lemma bootstrap_passes
    (P : nat → PyVal → St W → Outcome Session * St W → Prop) :
  (∀ password st, P O password st (OutOfFuel, st)) →
  (∀ fuel password st icloud w,
     PyiCloudService env (in_try password) (world st) = (inr icloud, w) →
     P (S fuel) password st
       (Returned icloud,
        mkSt w (trace st ++ [EvOpenSession (in_try password)]))) →
  (∀ fuel password st e w,
     PyiCloudService env (in_try password) (world st) = (inl e, w) →
     e ≠ PyiCloudNoStoredPasswordAvailableException →
     P (S fuel) password st
       (Raised e, mkSt w (trace st ++ [EvOpenSession (in_try password)]))) →
  (∀ fuel password st w1 typed w2 e w3,
     PyiCloudService env (in_try password) (world st)
     = (inl PyiCloudNoStoredPasswordAvailableException, w1) →
     click_prompt env "iCloud Password" true w1 = (typed, w2) →
     PyiCloudService env (in_except typed) w2 = (inl e, w3) →
     P (S fuel) password st
       (Raised e,
        mkSt w3 (trace st ++ [EvOpenSession (in_try password);
                              EvPrompt "iCloud Password" true;
                              EvOpenSession (in_except typed)]))) →
  (∀ fuel password st w1 typed w2 icloud w3,
     PyiCloudService env (in_try password) (world st)
     = (inl PyiCloudNoStoredPasswordAvailableException, w1) →
     click_prompt env "iCloud Password" true w1 = (typed, w2) →
     PyiCloudService env (in_except typed) w2 = (inr icloud, w3) →
     P fuel (PyStr typed)
       (mkSt w3 (trace st ++ [EvOpenSession (in_try password);
                              EvPrompt "iCloud Password" true;
                              EvOpenSession (in_except typed)]))
       (loop fuel (PyStr typed)
          (mkSt w3 (trace st ++ [EvOpenSession (in_try password);
                                 EvPrompt "iCloud Password" true;
                                 EvOpenSession (in_except typed)]))) →
     P (S fuel) password st
       (loop fuel (PyStr typed)
          (mkSt w3 (trace st ++ [EvOpenSession (in_try password);
                                 EvPrompt "iCloud Password" true;
                                 EvOpenSession (in_except typed)])))) →
  ∀ fuel password st, P fuel password st (loop fuel password st).
Proof.
  intros Hfuel Hbreak Huncaught Hraised Hround.
  induction fuel as [|fuel IH]; intros password st; [apply Hfuel|].
  destruct (PyiCloudService env (in_try password) (world st))
    as [[e|icloud] w1] eqn:H1.
  - destruct (decide (e = PyiCloudNoStoredPasswordAvailableException))
      as [-> | Hne].
    + destruct (click_prompt env "iCloud Password" true w1)
        as [typed w2] eqn:Hp.
      destruct (PyiCloudService env (in_except typed) w2)
        as [[e|icloud] w3] eqn:H2.
      * erewrite bootstrap_handler_raised by eassumption.
        by eapply Hraised.
      * erewrite bootstrap_handler_returned by eassumption.
        eapply Hround; [eassumption..|]. apply IH.
    + erewrite bootstrap_uncaught by eassumption. by apply Huncaught.
  - erewrite bootstrap_break by eassumption. by apply Hbreak.
Qed.

(** X1. Constructor calls against password prompts.  In every run of
    the loop the constructor is called twice for each time the password
    was asked, plus once more when the loop ends in the [try] call.  So a
    returned session has cost [2p + 1] calls for [p] prompts; a run that
    used up its passes has asked once per pass; an exception leaves after
    [2p] calls (raised by the handler) or [2p + 1] (raised by [try]). *)
Theorem X1_two_opens_per_prompt fuel password (st : St W) :
  ∃ delta : list Event,
    trace (loop fuel password st).2 = trace st ++ delta
    ∧ match (loop fuel password st).1 with
      | Returned _ =>
          count is_open delta = (2 * count is_prompt delta + 1)%nat
      | Raised _ =>
          count is_open delta = (2 * count is_prompt delta)%nat
          ∨ count is_open delta = (2 * count is_prompt delta + 1)%nat
      | OutOfFuel =>
          count is_open delta = (2 * count is_prompt delta)%nat
          ∧ count is_prompt delta = fuel
      end.
Proof.
  revert fuel password st.
  apply (bootstrap_passes
           (λ fuel _ st r,
              ∃ delta : list Event,
                trace r.2 = trace st ++ delta
                ∧ match r.1 with
                  | Returned _ =>
                      count is_open delta
                      = (2 * count is_prompt delta + 1)%nat
                  | Raised _ =>
                      count is_open delta = (2 * count is_prompt delta)%nat
                      ∨ count is_open delta
                        = (2 * count is_prompt delta + 1)%nat
                  | OutOfFuel =>
                      count is_open delta = (2 * count is_prompt delta)%nat
                      ∧ count is_prompt delta = fuel
                  end)).
  - intros password st. exists []. simpl. by rewrite app_nil_r.
  - intros fuel password st icloud w _. eexists. by split.
  - intros fuel password st e w _ _. eexists. split; [done|]. by right.
  - intros fuel password st w1 typed w2 e w3 _ _ _.
    eexists. split; [done|]. by left.
  - intros fuel password st w1 typed w2 icloud w3 _ _ _ (delta & Ht & Hc).
    exists ([EvOpenSession (in_try password);
             EvPrompt "iCloud Password" true;
             EvOpenSession (in_except typed)] ++ delta).
    split; [by rewrite Ht; norm_trace|].
    rewrite !count_app.
    change (count is_open [EvOpenSession (in_try password);
                           EvPrompt "iCloud Password" true;
                           EvOpenSession (in_except typed)]) with 2%nat.
    change (count is_prompt [EvOpenSession (in_try password);
                             EvPrompt "iCloud Password" true;
                             EvOpenSession (in_except typed)]) with 1%nat.
    destruct (loop fuel (PyStr typed) _).1; lia.
Qed.

(** X2. What is passed to the constructor, and what is asked.  In every
    run of the loop each constructor call forwards [cookie_directory],
    [client_id] and [china_mainland] as given, and its positional
    arguments are either domain, username and a password, or username and
    a typed password; username is passed on every call.  Everything else
    the loop does is to ask for ["iCloud Password"] with hidden input. *)
Theorem X2_every_call_forwards_the_options fuel password (st : St W) :
  ∃ delta : list Event,
    trace (loop fuel password st).2 = trace st ++ delta
    ∧ Forall
        (λ e,
           match e with
           | EvOpenSession args =>
               kw_cookie_directory args = cookie_directory
               ∧ kw_client_id args = client_id
               ∧ kw_china_mainland args = china_mainland
               ∧ ((∃ pw, positional args
                         = [PyStr domain; PyStr username; pw])
                  ∨ (∃ typed, positional args
                              = [PyStr username; PyStr typed]))
           | EvPrompt text hide_input =>
               text = "iCloud Password" ∧ hide_input = true
           | _ => False
           end) delta.
Proof.
  match goal with |- context [Forall ?q _] => set (Q := q) end.
  assert (∀ pw, Q (EvOpenSession (in_try pw))) as Htry.
  { intros pw. simpl. repeat split. left. by exists pw. }
  assert (∀ typed, Q (EvOpenSession (in_except typed))) as Hexcept.
  { intros typed. simpl. repeat split. right. by exists typed. }
  assert (Q (EvPrompt "iCloud Password" true)) as Hprompt by done.
  clearbody Q. revert fuel password st.
  apply (bootstrap_passes
           (λ _ _ st r,
              ∃ delta : list Event,
                trace r.2 = trace st ++ delta ∧ Forall Q delta)).
  - intros password st. exists []. simpl. by rewrite app_nil_r.
  - intros fuel password st icloud w _. eexists. split; [done|].
    by apply Forall_singleton.
  - intros fuel password st e w _ _. eexists. split; [done|].
    by apply Forall_singleton.
  - intros fuel password st w1 typed w2 e w3 _ _ _.
    eexists. split; [done|].
    apply Forall_cons. split; [done|].
    apply Forall_cons. split; [done|]. by apply Forall_singleton.
  - intros fuel password st w1 typed w2 icloud w3 _ _ _ (delta & Ht & Hall).
    exists ([EvOpenSession (in_try password);
             EvPrompt "iCloud Password" true;
             EvOpenSession (in_except typed)] ++ delta).
    split; [by rewrite Ht; norm_trace|].
    apply Forall_app. split; [|exact Hall].
    apply Forall_cons. split; [done|].
    apply Forall_cons. split; [done|]. by apply Forall_singleton.
Qed.

(** X3. Where a returned session comes from.  When the loop returns a
    session, it is the answer to the call it made last, and that call is
    the one of the [try] body, with domain, username and password.  The
    password of that call is the one the function was given when nothing
    was asked, and otherwise the one that was typed last and had just been
    passed by the handler.  A session obtained by the handler's own call
    is never the one returned. *)
Theorem X3_returned_session_is_from_the_try_call
    fuel password (st : St W) icloud st' :
  loop fuel password st = (Returned icloud, st') →
  ∃ (pw : PyVal) (w : W) (before : list Event),
    PyiCloudService env
      {| positional := [PyStr domain; PyStr username; pw];
         kw_cookie_directory := cookie_directory;
         kw_client_id := client_id;
         kw_china_mainland := china_mainland |} w
    = (inr icloud, world st')
    ∧ trace st'
      = trace st ++ before
        ++ [EvOpenSession
              {| positional := [PyStr domain; PyStr username; pw];
                 kw_cookie_directory := cookie_directory;
                 kw_client_id := client_id;
                 kw_china_mainland := china_mainland |}]
    ∧ ((before = [] ∧ pw = password)
       ∨ (∃ (typed : string) (earlier : list Event),
            pw = PyStr typed
            ∧ before
              = earlier
                ++ [EvPrompt "iCloud Password" true;
                    EvOpenSession
                      {| positional := [PyStr username; PyStr typed];
                         kw_cookie_directory := cookie_directory;
                         kw_client_id := client_id;
                         kw_china_mainland := china_mainland |}])).
Proof.
  revert icloud st'. revert fuel password st.
  apply (bootstrap_passes
           (λ _ password st r,
              ∀ icloud st',
                r = (Returned icloud, st') →
                ∃ (pw : PyVal) (w : W) (before : list Event),
                  PyiCloudService env (in_try pw) w = (inr icloud, world st')
                  ∧ trace st'
                    = trace st ++ before ++ [EvOpenSession (in_try pw)]
                  ∧ ((before = [] ∧ pw = password)
                     ∨ (∃ (typed : string) (earlier : list Event),
                          pw = PyStr typed
                          ∧ before
                            = earlier
                              ++ [EvPrompt "iCloud Password" true;
                                  EvOpenSession (in_except typed)])))).
  - intros password st icloud st' H. discriminate H.
  - intros fuel password st s w H1 icloud st' H. injection H as -> <-.
    exists password, (world st), []. simpl. split; [exact H1|].
    split; [done|]. by left.
  - intros fuel password st e w _ _ icloud st' H. discriminate H.
  - intros fuel password st w1 typed w2 e w3 _ _ _ icloud st' H.
    discriminate H.
  - intros fuel password st w1 typed w2 s w3 _ _ _ IH icloud st' H.
    destruct (IH icloud st' H) as (pw & w & before & Hw & Ht & Hb).
    exists pw, w. simpl in Ht.
    destruct Hb as [[-> ->] | (typed' & earlier & -> & ->)].
    + exists [EvOpenSession (in_try password);
              EvPrompt "iCloud Password" true;
              EvOpenSession (in_except typed)].
      split; [exact Hw|]. split; [by rewrite Ht; norm_trace|].
      right. exists typed, [EvOpenSession (in_try password)]. done.
    + exists ([EvOpenSession (in_try password);
               EvPrompt "iCloud Password" true;
               EvOpenSession (in_except typed)]
              ++ earlier
              ++ [EvPrompt "iCloud Password" true;
                  EvOpenSession (in_except typed')]).
      split; [exact Hw|]. split; [by rewrite Ht; norm_trace|].
      right.
      exists typed', ([EvOpenSession (in_try password);
                       EvPrompt "iCloud Password" true;
                       EvOpenSession (in_except typed)] ++ earlier).
      split; [done|]. by rewrite <- app_assoc.
Qed.

End Loop.

(** X4. The loop puts no bound on how often the password is asked.  For
    every [n] there is a session client (the keyring stays empty for [n]
    passes and each call of the handler goes through) with which the loop
    asks [n] times, calls the constructor [2n + 1] times and then returns
    the session. *)
Theorem X4_password_prompts_are_unbounded
    (domain username : string) (cookie_directory client_id : option string)
    (china_mainland : bool) (n : nat) :
  ∀ (password : PyVal) (t : list Event),
    ∃ delta : list Event,
      bootstrap Scripted.env domain username cookie_directory client_id
        china_mainland (S n) password (mkSt (Scripted.keeps_asking n) t)
      = (Returned Scripted.plain, mkSt Scripted.quiet (t ++ delta))
      ∧ count is_prompt delta = n
      ∧ count is_open delta = (2 * n + 1)%nat.
Proof.
  induction n as [|n IH]; intros password t.
  - eexists. split; [|split].
    + by erewrite bootstrap_break by reflexivity.
    + reflexivity.
    + reflexivity.
  - destruct (IH (PyStr "hunter2")
                 (t ++ [EvOpenSession
                          (try_args domain username cookie_directory
                             client_id china_mainland password);
                        EvPrompt "iCloud Password" true;
                        EvOpenSession
                          (except_args username cookie_directory client_id
                             china_mainland "hunter2")]))
      as (delta & Hrun & Hp & Ho).
    exists ([EvOpenSession
               (try_args domain username cookie_directory client_id
                  china_mainland password);
             EvPrompt "iCloud Password" true;
             EvOpenSession
               (except_args username cookie_directory client_id
                  china_mainland "hunter2")] ++ delta).
    split; [|split].
    + rewrite (bootstrap_handler_returned Scripted.env domain username
                 cookie_directory client_id china_mainland (S n) password
                 (mkSt (Scripted.keeps_asking (S n)) t)
                 {| Scripted.opens :=
                      inr Scripted.plain :: Scripted.empty_keyring_opens n;
                    Scripted.typed := replicate (S n) "hunter2";
                    Scripted.chosen := []; Scripted.deliveries := [];
                    Scripted.validations := [] |}
                 "hunter2"
                 {| Scripted.opens :=
                      inr Scripted.plain :: Scripted.empty_keyring_opens n;
                    Scripted.typed := replicate n "hunter2";
                    Scripted.chosen := []; Scripted.deliveries := [];
                    Scripted.validations := [] |}
                 Scripted.plain (Scripted.keeps_asking n)
                 eq_refl eq_refl eq_refl).
      simpl trace. rewrite Hrun. by rewrite <- app_assoc.
    + rewrite count_app, Hp. reflexivity.
    + rewrite count_app, Ho. simpl. lia.
Qed.

(** ** The flows, over all their runs *)

Section AllRuns.
Context {W Session : Type} (env : Collaborators W Session).

Lemma Forall_printed (Q : Event → Prop) (line : nat → Device → string)
    (devices : list Device) :
  (∀ text, Q (EvPrint text)) →
  Forall Q (imap (λ k d, EvPrint (line k d)) devices).
Proof.
  intros HQ. revert line.
  induction devices as [|d rest IH]; intros line; [constructor|].
  simpl. constructor; [apply HQ|]. apply (IH (λ k, line (S k))).
Qed.

Lemma Forall_menu (Q : Event → Prop) (devices : list Device) :
  (∀ text, Q (EvPrint text)) → Forall Q (menu_events devices).
Proof.
  intros HQ. unfold menu_events. apply Forall_app. split.
  - by apply Forall_printed.
  - by apply Forall_singleton.
Qed.

(** What has been logged when a device is settled. *)
Lemma Selected_all (Q : Event → Prop) icloud (st : St W) device w evs :
  covers_2sa Q → Selected env icloud st device w evs → Forall Q evs.
Proof.
  intros (_ & Hprint & Hint & Hsend & _) Hsel.
  destruct Hsel; [constructor| |].
  - apply Forall_app. split; [by apply Forall_menu|].
    apply Forall_singleton. apply Hint.
  - apply Forall_app. split; [by apply Forall_menu|].
    apply Forall_cons. split; [apply Hint|].
    apply Forall_singleton. apply Hsend.
Qed.

Lemma Selected_counts icloud (st : St W) device w evs :
  Selected env icloud st device w evs →
  (count is_send evs ≤ 1)%nat
  ∧ count is_validation evs = 0%nat
  ∧ count is_text_prompt evs = 0%nat.
Proof.
  intros Hsel.
  destruct Hsel; rewrite ?count_app, ?count_cons, ?count_nil;
    rewrite ?count_menu by done; simpl; lia.
Qed.

(** Every run of [request_2fa], by the two answers it gets. *)
Lemma request_2fa_shape icloud logger (st : St W) :
  ∃ code w1 ok w2,
    click_prompt env msg_code_prompt false (world st) = (code, w1)
    ∧ validate_2fa_code env icloud code w1 = (ok, w2)
    ∧ request_2fa env icloud logger st
      = (if ok then Returned tt else Raised (SystemExit 1),
         mkSt w2 (trace st ++ [EvPrompt msg_code_prompt false;
                               EvValidate2fa code;
                               EvLog (if ok then INFO else ERROR)
                                     (if ok then msg_2fa_done
                                      else msg_verify_failed)])).
Proof.
  destruct (click_prompt env msg_code_prompt false (world st))
    as [code w1] eqn:Hp.
  destruct (validate_2fa_code env icloud code w1) as [ok w2] eqn:Hv.
  exists code, w1, ok, w2. split; [done|]. split; [done|].
  by apply (request_2fa_run env icloud logger st code w1 ok w2).
Qed.

(** Every run of [request_2sa]: it reaches the validation, or delivery is
    refused, or the answer addresses no device. *)
Lemma request_2sa_shape icloud logger (st : St W) :
  (∃ device w evs code w1 ok w2,
     Selected env icloud st device w evs
     ∧ click_prompt env msg_code_prompt false w = (code, w1)
     ∧ validate_verification_code env icloud device code w1 = (ok, w2)
     ∧ request_2sa env icloud logger st
       = (if ok then Returned tt else Raised (SystemExit 1),
          mkSt w2 (trace st ++ EvTrustedDevices :: evs
                   ++ [EvPrompt msg_code_prompt false;
                       EvValidateCode device code;
                       EvLog (if ok then INFO else ERROR)
                             (if ok then msg_2sa_done
                              else msg_verify_failed)])))
  ∨ (∃ index w1 device w2,
       click_prompt_int env "Please choose an option:" 0 0
         (Z.of_nat (length (trusted_devices env icloud (world st))))
         (world st) = (index, w1)
       ∧ request_2sa env icloud logger st
         = (Raised (SystemExit 1),
            mkSt w2 (trace st ++ EvTrustedDevices
                     :: menu_events (trusted_devices env icloud (world st))
                     ++ [selection_prompt
                           (trusted_devices env icloud (world st));
                         EvSendCode device;
                         EvLog ERROR msg_send_failed])))
  ∨ (∃ index w1,
       trusted_devices env icloud (world st) ≠ []
       ∧ click_prompt_int env "Please choose an option:" 0 0
           (Z.of_nat (length (trusted_devices env icloud (world st))))
           (world st) = (index, w1)
       ∧ index ≠ Z.of_nat (length (trusted_devices env icloud (world st)))
       ∧ py_getitem (trusted_devices env icloud (world st)) index = None
       ∧ request_2sa env icloud logger st
         = (Raised IndexError,
            mkSt w1 (trace st ++ EvTrustedDevices
                     :: menu_events (trusted_devices env icloud (world st))
                     ++ [selection_prompt
                           (trusted_devices env icloud (world st))]))).
Proof.
  destruct (request_2sa_ways env icloud st)
    as [(device & w & evs & Hsel)
       | [(index & w1 & device & w2 & Hne & Hc & Hi & Hg & Hs)
         | (index & w1 & Hne & Hc & Hi & Hg)]].
  - left.
    destruct (click_prompt env msg_code_prompt false w) as [code w1] eqn:Hp.
    destruct (validate_verification_code env icloud device code w1)
      as [ok w2] eqn:Hv.
    exists device, w, evs, code, w1, ok, w2.
    repeat (split; [done|]). by eapply request_2sa_run.
  - right. left. exists index, w1, device, w2. split; [done|].
    by eapply request_2sa_delivery_failed.
  - right. right. exists index, w1. repeat (split; [done|]).
    by eapply request_2sa_index_error.
Qed.

Lemma request_2fa_alphabet (Q : Event → Prop) icloud logger (st : St W) :
  covers_2fa Q →
  ∃ delta : list Event,
    trace (request_2fa env icloud logger st).2 = trace st ++ delta
    ∧ Forall Q delta.
Proof.
  intros (Hcode & H2fa & Hinfo & Herror).
  destruct (request_2fa_shape icloud logger st)
    as (code & w1 & ok & w2 & _ & _ & ->).
  eexists. split; [reflexivity|].
  apply Forall_cons. split; [exact Hcode|].
  apply Forall_cons. split; [apply H2fa|].
  apply Forall_singleton. destruct ok; [apply Hinfo | apply Herror].
Qed.

Lemma request_2sa_alphabet (Q : Event → Prop) icloud logger (st : St W) :
  covers_2sa Q →
  ∃ delta : list Event,
    trace (request_2sa env icloud logger st).2 = trace st ++ delta
    ∧ Forall Q delta.
Proof.
  intros HQ.
  pose proof HQ
    as (Hdev & Hprint & Hint & Hsend & Hcode & Hval & Hinfo & Herror).
  destruct (request_2sa_shape icloud logger st)
    as [(device & w & evs & code & w1 & ok & w2 & Hsel & _ & _ & ->)
       | [(index & w1 & device & w2 & _ & ->)
         | (index & w1 & _ & _ & _ & _ & ->)]].
  - eexists. split; [reflexivity|].
    apply Forall_cons. split; [exact Hdev|].
    apply Forall_app. split; [by eapply Selected_all|].
    apply Forall_cons. split; [exact Hcode|].
    apply Forall_cons. split; [apply Hval|].
    apply Forall_singleton. destruct ok; [apply Hinfo | apply Herror].
  - eexists. split; [reflexivity|].
    apply Forall_cons. split; [exact Hdev|].
    apply Forall_app. split; [by apply Forall_menu|].
    apply Forall_cons. split; [apply Hint|].
    apply Forall_cons. split; [apply Hsend|].
    apply Forall_singleton. apply Herror.
  - eexists. split; [reflexivity|].
    apply Forall_cons. split; [exact Hdev|].
    apply Forall_app. split; [by apply Forall_menu|].
    apply Forall_singleton. apply Hint.
Qed.

(** The four ways into and through [completeAuthentication]. *)
Lemma completeAuthentication_2fa icloud logger (st : St W) :
  requires_2fa env icloud (world st) = true →
  completeAuthentication env false icloud logger st
  = bind (request_2fa env icloud logger) (λ _, ret icloud)
      (mkSt (world st)
            (trace st ++ [EvRequires2fa; EvLog INFO msg_2fa_required])).
Proof.
  intros H2fa. unfold completeAuthentication.
  unfold bind at 1. unfold bind at 1. unfold read at 1. simpl.
  rewrite H2fa. unfold bind at 1. unfold bind at 1. simpl.
  unfold bind. by norm_trace.
Qed.

Lemma completeAuthentication_2sa icloud logger (st : St W) :
  requires_2fa env icloud (world st) = false →
  requires_2sa env icloud (world st) = true →
  completeAuthentication env false icloud logger st
  = bind (request_2sa env icloud logger) (λ _, ret icloud)
      (mkSt (world st)
            (trace st ++ [EvRequires2fa; EvRequires2sa;
                          EvLog INFO msg_2sa_required])).
Proof.
  intros H2fa H2sa. unfold completeAuthentication.
  unfold bind at 1. unfold bind at 1. unfold read at 1. simpl.
  rewrite H2fa. unfold bind at 1. unfold read at 1. simpl.
  rewrite H2sa. unfold bind at 1. unfold bind at 1. simpl.
  unfold bind. by norm_trace.
Qed.

Lemma completeAuthentication_plain raise_error_on_2sa icloud logger
    (st : St W) :
  requires_2fa env icloud (world st) = false →
  requires_2sa env icloud (world st) = false →
  completeAuthentication env raise_error_on_2sa icloud logger st
  = (Returned icloud,
     mkSt (world st) (trace st ++ [EvRequires2fa; EvRequires2sa])).
Proof.
  intros H2fa H2sa. unfold completeAuthentication.
  unfold bind at 1. unfold bind at 1. unfold read at 1. simpl.
  rewrite H2fa. unfold bind at 1. unfold read at 1. simpl.
  rewrite H2sa. unfold ret. by norm_trace.
Qed.

Lemma completeAuthentication_raise icloud logger (st : St W) :
  requires_2fa env icloud (world st) = true
  ∨ requires_2sa env icloud (world st) = true →
  completeAuthentication env true icloud logger st
  = if requires_2fa env icloud (world st)
    then (Raised (TwoStepAuthRequiredError msg_2fa_required),
          mkSt (world st) (trace st ++ [EvRequires2fa]))
    else (Raised (TwoStepAuthRequiredError msg_2sa_required_error),
          mkSt (world st) (trace st ++ [EvRequires2fa; EvRequires2sa])).
Proof.
  intros H. unfold completeAuthentication.
  unfold bind at 1. unfold bind at 1. unfold read at 1. simpl.
  destruct (requires_2fa env icloud (world st)) eqn:H2fa; [done|].
  destruct H as [H|H]; [done|].
  unfold bind at 1. unfold read at 1. simpl. rewrite H. simpl.
  unfold bind, raise. by norm_trace.
Qed.

Lemma bind_returned_inv {A B} (m : M W A) (k : A → M W B) st b st' :
  bind m k st = (Returned b, st') →
  ∃ a st1, m st = (Returned a, st1) ∧ k a st1 = (Returned b, st').
Proof.
  unfold bind. destruct (m st) as [[a|e|] st1]; intros H; try done.
  by exists a, st1.
Qed.

Lemma bind_const_trace {A B} (m : M W A) (b : B) st :
  trace (bind m (λ _, ret b) st).2 = trace (m st).2.
Proof. unfold bind. by destruct (m st) as [[a|e|] st1]. Qed.

(** Everything [completeAuthentication] does is a facet read or a step of
    one of the two flows. *)
Lemma completeAuthentication_alphabet (Q : Event → Prop)
    raise_error_on_2sa icloud logger (st : St W) :
  covers_2fa Q → covers_2sa Q → Q EvRequires2fa → Q EvRequires2sa →
  ∃ delta : list Event,
    trace (completeAuthentication env raise_error_on_2sa icloud logger st).2
    = trace st ++ delta
    ∧ Forall Q delta.
Proof.
  intros H2fa H2sa Hr2fa Hr2sa.
  pose proof H2fa as (_ & _ & Hinfo & _).
  destruct (requires_2fa env icloud (world st)) eqn:E2fa;
    [|destruct (requires_2sa env icloud (world st)) eqn:E2sa].
  - destruct raise_error_on_2sa.
    + rewrite completeAuthentication_raise by (by left). rewrite E2fa.
      exists [EvRequires2fa]. split; [done|]. by apply Forall_singleton.
    + rewrite completeAuthentication_2fa by done.
      rewrite bind_const_trace.
      destruct (request_2fa_alphabet Q icloud logger
                  (mkSt (world st)
                        (trace st ++ [EvRequires2fa;
                                      EvLog INFO msg_2fa_required])) H2fa)
        as (delta & -> & Hall).
      exists ([EvRequires2fa; EvLog INFO msg_2fa_required] ++ delta).
      split; [by norm_trace|].
      apply Forall_cons. split; [done|]. apply Forall_cons. by split.
  - destruct raise_error_on_2sa.
    + rewrite completeAuthentication_raise by (by right). rewrite E2fa.
      exists [EvRequires2fa; EvRequires2sa]. split; [done|].
      apply Forall_cons. split; [done|]. by apply Forall_singleton.
    + rewrite completeAuthentication_2sa by done.
      rewrite bind_const_trace.
      destruct (request_2sa_alphabet Q icloud logger
                  (mkSt (world st)
                        (trace st ++ [EvRequires2fa; EvRequires2sa;
                                      EvLog INFO msg_2sa_required])) H2sa)
        as (delta & -> & Hall).
      exists ([EvRequires2fa; EvRequires2sa; EvLog INFO msg_2sa_required]
              ++ delta).
      split; [by norm_trace|].
      apply Forall_cons. split; [done|].
      apply Forall_cons. split; [done|]. apply Forall_cons. by split.
  - rewrite completeAuthentication_plain by done.
    exists [EvRequires2fa; EvRequires2sa]. split; [done|].
    apply Forall_cons. split; [done|]. by apply Forall_singleton.
Qed.

(** X6. With an answer inside the range the selection prompt is given,
    [request_2sa] never fails on the list access: it either returns or
    raises [SystemExit(1)]. *)
Theorem X6_answer_in_range_never_raises_IndexError
    icloud logger (st : St W) :
  (trusted_devices env icloud (world st) ≠ [] →
   0 ≤ (click_prompt_int env "Please choose an option:" 0 0
          (Z.of_nat (length (trusted_devices env icloud (world st))))
          (world st)).1
     ≤ Z.of_nat (length (trusted_devices env icloud (world st)))) →
  (request_2sa env icloud logger st).1 = Returned tt
  ∨ (request_2sa env icloud logger st).1 = Raised (SystemExit 1).
Proof.
  intros Hrange.
  destruct (request_2sa_shape icloud logger st)
    as [(device & w & evs & code & w1 & ok & w2 & _ & _ & _ & ->)
       | [(index & w1 & device & w2 & _ & ->)
         | (index & w1 & Hne & Hc & Hi & Hg & _)]].
  - destruct ok; [by left | by right].
  - by right.
  - specialize (Hrange Hne). rewrite Hc in Hrange. simpl in Hrange.
    destruct (py_getitem_in_range
                (trusted_devices env icloud (world st)) index)
      as (x & _ & Hx); [lia|].
    rewrite Hx in Hg. discriminate Hg.
Qed.

(** X7. No run of [request_2sa] repeats a step: the device list is read
    once at the start, a code is delivered at most once, a code is asked
    for at most once and validated exactly as often as it was asked for,
    and the two-factor validation is never called. *)
Theorem X7_request_2sa_does_each_step_at_most_once
    icloud logger (st : St W) :
  ∃ delta : list Event,
    trace (request_2sa env icloud logger st).2
    = trace st ++ EvTrustedDevices :: delta
    ∧ (count is_send delta ≤ 1)%nat
    ∧ (count is_text_prompt delta ≤ 1)%nat
    ∧ count is_validation delta = count is_text_prompt delta
    ∧ count is_strong_flow delta = 0%nat
    ∧ count (λ e, match e with EvTrustedDevices => true | _ => false end)
        delta = 0%nat.
Proof.
  destruct (request_2sa_shape icloud logger st)
    as [(device & w & evs & code & w1 & ok & w2 & Hsel & _ & _ & ->)
       | [(index & w1 & device & w2 & _ & ->)
         | (index & w1 & _ & _ & _ & _ & ->)]].
  - eexists. split; [reflexivity|].
    destruct (Selected_counts icloud st device w evs Hsel)
      as (Hs & Hv & Hp).
    assert (count is_strong_flow evs = 0%nat
            ∧ count (λ e, match e with
                          | EvTrustedDevices => true
                          | _ => false
                          end) evs = 0%nat) as [H2fa Hdev].
    { destruct Hsel; rewrite ?count_app, ?count_cons, ?count_nil;
        rewrite ?count_menu by done; done. }
    rewrite !count_app, !count_cons, !count_nil, Hv, Hp, H2fa, Hdev.
    simpl. lia.
  - eexists. split; [reflexivity|].
    rewrite !count_app, !count_cons, !count_nil.
    rewrite !count_menu by done. simpl. lia.
  - eexists. split; [reflexivity|].
    rewrite !count_app, !count_cons, !count_nil.
    rewrite !count_menu by done. simpl. lia.
Qed.

(** X8. A session that requires verification is handed back only after a
    validation that succeeded.  When [completeAuthentication] returns for
    a session with [requires_2fa] or [requires_2sa] set, the mode is
    interactive, the session returned is the one passed in, and the last
    thing before the closing notice was a validation call that answered
    true: [validate_2fa_code] when [requires_2fa] holds, and otherwise
    [validate_verification_code]. *)
Theorem X8_returned_only_after_successful_validation
    raise_error_on_2sa icloud logger (st : St W) s st' :
  requires_2fa env icloud (world st) = true
  ∨ requires_2sa env icloud (world st) = true →
  completeAuthentication env raise_error_on_2sa icloud logger st
  = (Returned s, st') →
  s = icloud
  ∧ raise_error_on_2sa = false
  ∧ ∃ (before : list Event) (code : string) (w : W),
      (requires_2fa env icloud (world st) = true
       ∧ validate_2fa_code env icloud code w = (true, world st')
       ∧ trace st'
         = trace st ++ before
           ++ [EvValidate2fa code; EvLog INFO msg_2fa_done])
      ∨ (requires_2fa env icloud (world st) = false
         ∧ ∃ device : Device,
             validate_verification_code env icloud device code w
             = (true, world st')
             ∧ trace st'
               = trace st ++ before
                 ++ [EvValidateCode device code; EvLog INFO msg_2sa_done]).
Proof.
  intros Hreq Hrun.
  destruct raise_error_on_2sa.
  { rewrite completeAuthentication_raise in Hrun by done.
    by destruct (requires_2fa env icloud (world st)). }
  destruct (requires_2fa env icloud (world st)) eqn:E2fa.
  - rewrite completeAuthentication_2fa in Hrun by done.
    apply bind_returned_inv in Hrun as (u & st1 & Hflow & Hret).
    injection Hret as <- <-.
    destruct (request_2fa_shape icloud logger
                (mkSt (world st)
                      (trace st ++ [EvRequires2fa;
                                    EvLog INFO msg_2fa_required])))
      as (code & w1 & ok & w2 & _ & Hv & Hshape).
    rewrite Hshape in Hflow. destruct ok; [|done].
    injection Hflow as _ <-. split; [done|]. split; [done|].
    exists [EvRequires2fa; EvLog INFO msg_2fa_required;
            EvPrompt msg_code_prompt false], code, w1.
    left. split; [done|]. split; [exact Hv|]. by norm_trace.
  - destruct Hreq as [Hreq|Hreq]; [done|].
    rewrite completeAuthentication_2sa in Hrun by done.
    apply bind_returned_inv in Hrun as (u & st1 & Hflow & Hret).
    injection Hret as <- <-.
    destruct (request_2sa_shape icloud logger
                (mkSt (world st)
                      (trace st ++ [EvRequires2fa; EvRequires2sa;
                                    EvLog INFO msg_2sa_required])))
      as [(device & w & evs & code & w1 & ok & w2 & _ & _ & Hv & Hshape)
         | [(index & w1 & device & w2 & _ & Hshape)
           | (index & w1 & _ & _ & _ & _ & Hshape)]];
      rewrite Hshape in Hflow; [|done..].
    destruct ok; [|done].
    injection Hflow as _ <-. split; [done|]. split; [done|].
    exists ([EvRequires2fa; EvRequires2sa; EvLog INFO msg_2sa_required;
             EvTrustedDevices] ++ evs ++ [EvPrompt msg_code_prompt false]),
           code, w1.
    right. split; [done|]. exists device. split; [exact Hv|].
    by norm_trace.
Qed.

(** X9. The two-factor validation is reserved for sessions that require
    two-factor: when [requires_2fa] does not hold,
    [completeAuthentication] never calls [validate_2fa_code], in either
    mode and whatever [requires_2sa] says. *)
Theorem X9_two_factor_validation_only_when_required
    raise_error_on_2sa icloud logger (st : St W) :
  requires_2fa env icloud (world st) = false →
  ∃ delta : list Event,
    trace (completeAuthentication env raise_error_on_2sa icloud logger st).2
    = trace st ++ delta
    ∧ Forall (λ e, ∀ code, e ≠ EvValidate2fa code) delta.
Proof.
  intros E2fa.
  assert (covers_2sa (λ e, ∀ code, e ≠ EvValidate2fa code)) as Hcov
    by (by repeat split).
  destruct (requires_2sa env icloud (world st)) eqn:E2sa.
  - destruct raise_error_on_2sa.
    + rewrite completeAuthentication_raise by (by right). rewrite E2fa.
      exists [EvRequires2fa; EvRequires2sa]. split; [done|].
      apply Forall_cons. split; [done|]. by apply Forall_singleton.
    + rewrite completeAuthentication_2sa by done.
      rewrite bind_const_trace.
      destruct (request_2sa_alphabet _ icloud logger
                  (mkSt (world st)
                        (trace st ++ [EvRequires2fa; EvRequires2sa;
                                      EvLog INFO msg_2sa_required])) Hcov)
        as (delta & -> & Hall).
      exists ([EvRequires2fa; EvRequires2sa; EvLog INFO msg_2sa_required]
              ++ delta).
      split; [by norm_trace|].
      apply Forall_cons. split; [done|].
      apply Forall_cons. split; [done|]. apply Forall_cons. by split.
  - rewrite completeAuthentication_plain by done.
    exists [EvRequires2fa; EvRequires2sa]. split; [done|].
    apply Forall_cons. split; [done|]. by apply Forall_singleton.
Qed.

End AllRuns.

(** ** [authenticate_] as a whole *)

Lemma count_none p (t : list Event) :
  Forall (λ e, p e = false) t → count p t = 0%nat.
Proof.
  induction 1 as [|e t He _ IH]; [done|].
  by rewrite count_cons, He, IH.
Qed.

Section Whole.
Context {W Session : Type} (env : Collaborators W Session).
Variables (domain username : string) (cookie_directory : option string)
          (raise_error_on_2sa : bool) (client_id : option string)
          (china_mainland : bool).

Local Abbreviation loop :=
  (bootstrap env domain username cookie_directory client_id china_mainland).
Local Abbreviation in_try :=
  (try_args domain username cookie_directory client_id china_mainland).
Local Abbreviation in_except :=
  (except_args username cookie_directory client_id china_mainland).
Local Abbreviation whole :=
  (authenticate_ env domain username cookie_directory raise_error_on_2sa
     client_id china_mainland).

Lemma authenticate_unfold fuel password (st : St W) :
  whole fuel password st
  = bind (loop fuel password)
      (λ icloud,
         completeAuthentication env raise_error_on_2sa icloud icloudpd_logger)
      (mkSt (world st) (trace st ++ [EvLog DEBUG "Authenticating..."])).
Proof. reflexivity. Qed.

(** Everything the loop does is a constructor call or the password
    prompt. *)
Lemma bootstrap_alphabet (Q : Event → Prop) fuel password (st : St W) :
  (∀ pw, Q (EvOpenSession (in_try pw))) →
  (∀ typed, Q (EvOpenSession (in_except typed))) →
  Q (EvPrompt "iCloud Password" true) →
  ∃ delta : list Event,
    trace (loop fuel password st).2 = trace st ++ delta ∧ Forall Q delta.
Proof.
  intros Htry Hexcept Hprompt. revert fuel password st.
  apply (bootstrap_passes env domain username cookie_directory client_id
           china_mainland
           (λ _ _ st r,
              ∃ delta : list Event,
                trace r.2 = trace st ++ delta ∧ Forall Q delta)).
  - intros password st. exists []. simpl. by rewrite app_nil_r.
  - intros fuel password st icloud w _. eexists. split; [done|].
    by apply Forall_singleton.
  - intros fuel password st e w _ _. eexists. split; [done|].
    by apply Forall_singleton.
  - intros fuel password st w1 typed w2 e w3 _ _ _.
    eexists. split; [done|].
    apply Forall_cons. split; [done|].
    apply Forall_cons. split; [done|]. by apply Forall_singleton.
  - intros fuel password st w1 typed w2 icloud w3 _ _ _ (delta & Ht & Hall).
    exists ([EvOpenSession (in_try password);
             EvPrompt "iCloud Password" true;
             EvOpenSession (in_except typed)] ++ delta).
    split; [by rewrite Ht; norm_trace|].
    apply Forall_app. split; [|exact Hall].
    apply Forall_cons. split; [done|].
    apply Forall_cons. split; [done|]. by apply Forall_singleton.
Qed.

(** A returned session is the answer to the last call of the loop, which
    is a call of the [try] body. *)
Lemma bootstrap_returned_origin fuel password (st : St W) icloud st' :
  loop fuel password st = (Returned icloud, st') →
  ∃ (pw : PyVal) (w : W) (before : list Event),
    PyiCloudService env (in_try pw) w = (inr icloud, world st')
    ∧ trace st' = trace st ++ before ++ [EvOpenSession (in_try pw)].
Proof.
  revert icloud st'. revert fuel password st.
  apply (bootstrap_passes env domain username cookie_directory client_id
           china_mainland
           (λ _ _ st r,
              ∀ icloud st',
                r = (Returned icloud, st') →
                ∃ (pw : PyVal) (w : W) (before : list Event),
                  PyiCloudService env (in_try pw) w = (inr icloud, world st')
                  ∧ trace st'
                    = trace st ++ before ++ [EvOpenSession (in_try pw)])).
  - intros password st icloud st' H. discriminate H.
  - intros fuel password st s w H1 icloud st' H. injection H as -> <-.
    by exists password, (world st), [].
  - intros fuel password st e w _ _ icloud st' H. discriminate H.
  - intros fuel password st w1 typed w2 e w3 _ _ _ icloud st' H.
    discriminate H.
  - intros fuel password st w1 typed w2 s w3 _ _ _ IH icloud st' H.
    destruct (IH icloud st' H) as (pw & w & before & Hw & Ht).
    exists pw, w,
      ([EvOpenSession (in_try password);
        EvPrompt "iCloud Password" true;
        EvOpenSession (in_except typed)] ++ before).
    split; [exact Hw|]. rewrite Ht. by norm_trace.
Qed.

(** X5. With a password that opens the session at the first call and a
    session that needs no verification, [authenticate_] returns that
    session after one constructor call and the two facet reads: nothing
    is asked of the human, in either mode. *)
Theorem X5_no_prompt_when_the_first_call_succeeds
    fuel password (st : St W) icloud w :
  PyiCloudService env
    {| positional := [PyStr domain; PyStr username; password];
       kw_cookie_directory := cookie_directory;
       kw_client_id := client_id;
       kw_china_mainland := china_mainland |} (world st)
  = (inr icloud, w) →
  requires_2fa env icloud w = false →
  requires_2sa env icloud w = false →
  whole (S fuel) password st
  = (Returned icloud,
     mkSt w
       (trace st
        ++ [EvLog DEBUG "Authenticating...";
            EvOpenSession
              {| positional := [PyStr domain; PyStr username; password];
                 kw_cookie_directory := cookie_directory;
                 kw_client_id := client_id;
                 kw_china_mainland := china_mainland |};
            EvRequires2fa;
            EvRequires2sa])).
Proof.
  intros Hopen H2fa H2sa. rewrite authenticate_unfold.
  erewrite bind_returned by (apply bootstrap_break; simpl; exact Hopen).
  rewrite completeAuthentication_plain by done. by norm_trace.
Qed.

(** The pass in which the loop returns: it is reached by going round, its
    [try] call is made in the world of that moment, and the answer to that
    call is the session returned and the world returned. *)
Lemma bootstrap_returned_pass fuel password (st : St W) icloud st' :
  loop fuel password st = (Returned icloud, st') →
  ∃ (pw : PyVal) (st1 : St W),
    GoesRound env domain username cookie_directory client_id china_mainland
      password st pw st1
    ∧ PyiCloudService env (in_try pw) (world st1) = (inr icloud, world st')
    ∧ trace st' = trace st1 ++ [EvOpenSession (in_try pw)].
Proof.
  revert icloud st'. revert fuel password st.
  apply (bootstrap_passes env domain username cookie_directory client_id
           china_mainland
           (λ _ password st r,
              ∀ icloud st',
                r = (Returned icloud, st') →
                ∃ (pw : PyVal) (st1 : St W),
                  GoesRound env domain username cookie_directory client_id
                    china_mainland password st pw st1
                  ∧ PyiCloudService env (in_try pw) (world st1)
                    = (inr icloud, world st')
                  ∧ trace st' = trace st1 ++ [EvOpenSession (in_try pw)])).
  - intros password st icloud st' H. discriminate H.
  - intros fuel password st s w H1 icloud st' H. injection H as -> <-.
    exists password, st. split; [constructor|]. by split.
  - intros fuel password st e w _ _ icloud st' H. discriminate H.
  - intros fuel password st w1 typed w2 e w3 _ _ _ icloud st' H.
    discriminate H.
  - intros fuel password st w1 typed w2 s w3 H1 Hp H2 IH icloud st' H.
    destruct (IH icloud st' H) as (pw & st1 & Hround & Hw & Ht).
    exists pw, st1. split; [|by split].
    by eapply goes_round_again.
Qed.

Lemma GoesRound_extends password (st : St W) pw st1 :
  GoesRound env domain username cookie_directory client_id china_mainland
    password st pw st1 →
  ∃ before : list Event,
    trace st1 = trace st ++ before
    ∧ Forall (λ e, is_text_prompt e = false ∨ e = EvPrompt "iCloud Password" true)
        before.
Proof.
  induction 1 as [password st
                 | password st w1 typed w2 icloud w3 pw st1 _ _ _ _ IH].
  - exists []. split; [by rewrite app_nil_r|constructor].
  - destruct IH as (before & Ht & Hall). simpl in Ht.
    exists ([EvOpenSession (in_try password);
             EvPrompt "iCloud Password" true;
             EvOpenSession (in_except typed)] ++ before).
    split; [by rewrite Ht; norm_trace|].
    apply Forall_app. split; [|exact Hall].
    apply Forall_cons. split; [by left|].
    apply Forall_cons. split; [by right|].
    apply Forall_singleton. by left.
Qed.

(** X10. The session [authenticate_] returns is the answer to the last
    constructor call it made.  The loop goes round to a last pass; the
    [try] call of that pass, with domain, username and a password by
    position, is made in the world reached at that moment; its answer is
    the session returned; what follows starts in the world that call left
    and makes no further constructor call. *)
Theorem X10_authenticate_returns_the_last_opened_session
    fuel password (st : St W) s st' :
  whole fuel password st = (Returned s, st') →
  ∃ (pw : PyVal) (st1 : St W) (w' : W) (before after : list Event),
    GoesRound env domain username cookie_directory client_id china_mainland
      password
      (mkSt (world st) (trace st ++ [EvLog DEBUG "Authenticating..."]))
      pw st1
    ∧ trace st1 = trace st ++ before
    ∧ PyiCloudService env
        {| positional := [PyStr domain; PyStr username; pw];
           kw_cookie_directory := cookie_directory;
           kw_client_id := client_id;
           kw_china_mainland := china_mainland |} (world st1)
      = (inr s, w')
    ∧ completeAuthentication env raise_error_on_2sa s icloudpd_logger
        (mkSt w'
           (trace st1
            ++ [EvOpenSession
                  {| positional := [PyStr domain; PyStr username; pw];
                     kw_cookie_directory := cookie_directory;
                     kw_client_id := client_id;
                     kw_china_mainland := china_mainland |}]))
      = (Returned s, st')
    ∧ trace st'
      = trace st ++ before
        ++ EvOpenSession
             {| positional := [PyStr domain; PyStr username; pw];
                kw_cookie_directory := cookie_directory;
                kw_client_id := client_id;
                kw_china_mainland := china_mainland |}
        :: after
    ∧ count is_open after = 0%nat.
Proof.
  intros Hrun. rewrite authenticate_unfold in Hrun.
  apply bind_returned_inv in Hrun as (icloud & st2 & Hloop & Hdone).
  assert (s = icloud) as ->.
  { unfold completeAuthentication in Hdone.
    apply bind_returned_inv in Hdone as (r2fa & st3 & _ & Hrest).
    apply bind_returned_inv in Hrest as (u & st4 & _ & Hret).
    unfold ret in Hret. by injection Hret as <- _. }
  destruct (bootstrap_returned_pass _ _ _ _ _ Hloop)
    as (pw & st1 & Hround & Hw & Ht).
  destruct (GoesRound_extends _ _ _ _ Hround) as (before & Hbefore & _).
  simpl in Hbefore.
  destruct (completeAuthentication_alphabet env
              (λ e, is_open e = false) raise_error_on_2sa icloud
              icloudpd_logger st2)
    as (after & Hafter & Hall); [by repeat split..|].
  rewrite Hdone in Hafter. simpl in Hafter.
  exists pw, st1, (world st2),
    (EvLog DEBUG "Authenticating..." :: before), after.
  split; [exact Hround|].
  split; [by rewrite Hbefore; norm_trace|].
  split; [exact Hw|].
  split.
  { unfold try_args in Ht. rewrite <- Ht. by destruct st2. }
  split; [|by apply count_none].
  rewrite Hafter, Ht, Hbefore. by norm_trace.
Qed.

(** X11. [authenticate_] works in two phases that do not mix.  After the
    opening debug message come the constructor calls and the password
    prompts, which are all hidden and all read ["iCloud Password"]; then,
    if at all, the verification steps, among which there is no constructor
    call any more and the only text asked for is the verification code, in
    the clear. *)
Theorem X11_opening_comes_before_verifying fuel password (st : St W) :
  ∃ opening verifying : list Event,
    trace (whole fuel password st).2
    = trace st ++ EvLog DEBUG "Authenticating..." :: opening ++ verifying
    ∧ Forall (λ e,
                match e with
                | EvOpenSession _ => True
                | EvPrompt text hide_input =>
                    text = "iCloud Password" ∧ hide_input = true
                | _ => False
                end) opening
    ∧ Forall (λ e,
                match e with
                | EvOpenSession _ => False
                | EvLog DEBUG _ => False
                | EvPrompt text hide_input =>
                    text = "Please enter two-factor authentication code"
                    ∧ hide_input = false
                | _ => True
                end) verifying.
Proof.
  rewrite authenticate_unfold.
  match goal with
  | |- context [Forall ?q1 _ ∧ Forall ?q2 _] => set (Q1 := q1); set (Q2 := q2)
  end.
  destruct (bootstrap_alphabet Q1 fuel password
              (mkSt (world st)
                    (trace st ++ [EvLog DEBUG "Authenticating..."])))
    as (opening & Ht & Hopening); [done..|].
  exists opening. unfold bind.
  destruct (loop fuel password _) as [[icloud|e|] st1] eqn:Hloop.
  - destruct (completeAuthentication_alphabet env Q2 raise_error_on_2sa
                icloud icloudpd_logger st1)
      as (verifying & Hv & Hverifying); [by repeat split..|].
    exists verifying. rewrite Hv. simpl in Ht. rewrite Ht.
    split; [by norm_trace|done].
  - exists []. simpl in *. rewrite Ht.
    split; [by norm_trace; rewrite app_nil_r|]. split; [done|constructor].
  - exists []. simpl in *. rewrite Ht.
    split; [by norm_trace; rewrite app_nil_r|]. split; [done|constructor].
Qed.

End Whole.

Section NonInteractive.
Context {W Session : Type} (env : Collaborators W Session).
Variables (domain username : string) (cookie_directory : option string)
          (client_id : option string) (china_mainland : bool).


End NonInteractive.

(** ** The further properties on the scripted world *)

(** X3 where the keyring is empty once: the session returned is the
    answer to a call that carries the domain. *)
Lemma X3_witness :
  bootstrap Scripted.env "cn" "user@example.com" None None true 2 PyNone
    (Scripted.start Scripted.no_stored_password_once)
  = (Returned Scripted.plain,
     mkSt Scripted.quiet
       [EvOpenSession
          (try_args "cn" "user@example.com" None None true PyNone);
        EvPrompt "iCloud Password" true;
        EvOpenSession (except_args "user@example.com" None None true
                         "hunter2");
        EvOpenSession
          (try_args "cn" "user@example.com" None None true
             (PyStr "hunter2"))])
  ∧ ∃ (pw : PyVal) (w : Scripted.Script) (before : list Event),
      PyiCloudService Scripted.env
        (try_args "cn" "user@example.com" None None true pw) w
      = (inr Scripted.plain, Scripted.quiet)
      ∧ [EvOpenSession
           (try_args "cn" "user@example.com" None None true PyNone);
         EvPrompt "iCloud Password" true;
         EvOpenSession (except_args "user@example.com" None None true
                          "hunter2");
         EvOpenSession
           (try_args "cn" "user@example.com" None None true
              (PyStr "hunter2"))]
        = [] ++ before
          ++ [EvOpenSession
                (try_args "cn" "user@example.com" None None true pw)]
      ∧ ((before = [] ∧ pw = PyNone)
         ∨ (∃ (typed : string) (earlier : list Event),
              pw = PyStr typed
              ∧ before
                = earlier
                  ++ [EvPrompt "iCloud Password" true;
                      EvOpenSession
                        (except_args "user@example.com" None None true
                           typed)])).
Proof.
  split; [reflexivity|].
  apply (X3_returned_session_is_from_the_try_call Scripted.env
           "cn" "user@example.com" None None true 2%nat PyNone
           (Scripted.start Scripted.no_stored_password_once)
           Scripted.plain
           (mkSt Scripted.quiet
              [EvOpenSession
                 (try_args "cn" "user@example.com" None None true PyNone);
               EvPrompt "iCloud Password" true;
               EvOpenSession (except_args "user@example.com" None None true
                                "hunter2");
               EvOpenSession
                 (try_args "cn" "user@example.com" None None true
                    (PyStr "hunter2"))])).
  reflexivity.
Defined.

(** X5 where the password is given and accepted at once. *)
Lemma X5_witness :
  authenticate_ Scripted.env "cn" "user@example.com" None true None true
    1 (PyStr "hunter1") (Scripted.start Scripted.opens_at_once)
  = (Returned Scripted.plain,
     mkSt Scripted.quiet
       [EvLog DEBUG "Authenticating...";
        EvOpenSession
          (try_args "cn" "user@example.com" None None true
             (PyStr "hunter1"));
        EvRequires2fa;
        EvRequires2sa]).
Proof.
  apply (X5_no_prompt_when_the_first_call_succeeds Scripted.env
           "cn" "user@example.com" None true None true 0%nat
           (PyStr "hunter1") (Scripted.start Scripted.opens_at_once)
           Scripted.plain Scripted.quiet); reflexivity.
Defined.

(** X6 where the second of two devices is chosen. *)
Lemma X6_witness :
  (request_2sa Scripted.env
     (Scripted.legacy_with [Scripted.iphone; Scripted.sms]) icloudpd_logger
     (Scripted.start (Scripted.choose 1 true true))).1 = Returned tt
  ∨ (request_2sa Scripted.env
       (Scripted.legacy_with [Scripted.iphone; Scripted.sms]) icloudpd_logger
       (Scripted.start (Scripted.choose 1 true true))).1
    = Raised (SystemExit 1).
Proof.
  apply (X6_answer_in_range_never_raises_IndexError Scripted.env
           (Scripted.legacy_with [Scripted.iphone; Scripted.sms])
           icloudpd_logger (Scripted.start (Scripted.choose 1 true true))).
  intros _. simpl. lia.
Defined.

(** X8 where a two-factor session is verified with an accepted code. *)
Lemma X8_witness :
  completeAuthentication Scripted.env false Scripted.strong_only
    icloudpd_logger (Scripted.start Scripted.code_accepted)
  = (Returned Scripted.strong_only,
     mkSt Scripted.quiet
       [EvRequires2fa;
        EvLog INFO "Two-factor authentication is required!";
        EvPrompt "Please enter two-factor authentication code" false;
        EvValidate2fa "123456";
        EvLog INFO msg_2fa_done])
  ∧ Scripted.strong_only = Scripted.strong_only
  ∧ false = false
  ∧ ∃ (before : list Event) (code : string) (w : Scripted.Script),
      (true = true
       ∧ validate_2fa_code Scripted.env Scripted.strong_only code w
         = (true, Scripted.quiet)
       ∧ [EvRequires2fa;
          EvLog INFO "Two-factor authentication is required!";
          EvPrompt "Please enter two-factor authentication code" false;
          EvValidate2fa "123456";
          EvLog INFO msg_2fa_done]
         = [] ++ before ++ [EvValidate2fa code; EvLog INFO msg_2fa_done])
      ∨ (true = false
         ∧ ∃ device : Device,
             validate_verification_code Scripted.env Scripted.strong_only
               device code w = (true, Scripted.quiet)
             ∧ [EvRequires2fa;
                EvLog INFO "Two-factor authentication is required!";
                EvPrompt "Please enter two-factor authentication code" false;
                EvValidate2fa "123456";
                EvLog INFO msg_2fa_done]
               = [] ++ before
                 ++ [EvValidateCode device code; EvLog INFO msg_2sa_done]).
Proof.
  split; [reflexivity|].
  apply (X8_returned_only_after_successful_validation Scripted.env
           false Scripted.strong_only icloudpd_logger
           (Scripted.start Scripted.code_accepted)
           Scripted.strong_only
           (mkSt Scripted.quiet
              [EvRequires2fa;
               EvLog INFO "Two-factor authentication is required!";
               EvPrompt "Please enter two-factor authentication code" false;
               EvValidate2fa "123456";
               EvLog INFO msg_2fa_done])).
  - left. reflexivity.
  - reflexivity.
Defined.

(** X9 where a two-step session delivers to the first device. *)
Lemma X9_witness :
  requires_2fa Scripted.env
    (Scripted.legacy_with [Scripted.iphone; Scripted.sms])
    (Scripted.choose 0 true true) = false
  ∧ ∃ delta : list Event,
      trace (completeAuthentication Scripted.env false
               (Scripted.legacy_with [Scripted.iphone; Scripted.sms])
               icloudpd_logger
               (Scripted.start (Scripted.choose 0 true true))).2
      = [] ++ delta
      ∧ Forall (λ e, ∀ code, e ≠ EvValidate2fa code) delta.
Proof.
  split; [reflexivity|].
  apply (X9_two_factor_validation_only_when_required Scripted.env false
           (Scripted.legacy_with [Scripted.iphone; Scripted.sms])
           icloudpd_logger (Scripted.start (Scripted.choose 0 true true))).
  reflexivity.
Defined.

(** X10 where the keyring is empty once: the last pass starts after one
    round, in the script the handler's call left, and its call returns
    the session that comes back. *)
Lemma X10_witness :
  ∃ (pw : PyVal) (st1 : St Scripted.Script) (w' : Scripted.Script)
    (before after : list Event),
    GoesRound Scripted.env "cn" "user@example.com" None None true PyNone
      (mkSt Scripted.no_stored_password_once
            ([] ++ [EvLog DEBUG "Authenticating..."]))
      pw st1
    ∧ trace st1 = [] ++ before
    ∧ PyiCloudService Scripted.env
        (try_args "cn" "user@example.com" None None true pw) (world st1)
      = (inr Scripted.plain, w')
    ∧ completeAuthentication Scripted.env false Scripted.plain
        icloudpd_logger
        (mkSt w'
           (trace st1
            ++ [EvOpenSession
                  (try_args "cn" "user@example.com" None None true pw)]))
      = (Returned Scripted.plain,
         mkSt Scripted.quiet
           [EvLog DEBUG "Authenticating...";
            EvOpenSession
              (try_args "cn" "user@example.com" None None true PyNone);
            EvPrompt "iCloud Password" true;
            EvOpenSession (except_args "user@example.com" None None true
                             "hunter2");
            EvOpenSession
              (try_args "cn" "user@example.com" None None true
                 (PyStr "hunter2"));
            EvRequires2fa;
            EvRequires2sa])
    ∧ [EvLog DEBUG "Authenticating...";
       EvOpenSession
         (try_args "cn" "user@example.com" None None true PyNone);
       EvPrompt "iCloud Password" true;
       EvOpenSession (except_args "user@example.com" None None true
                        "hunter2");
       EvOpenSession
         (try_args "cn" "user@example.com" None None true
            (PyStr "hunter2"));
       EvRequires2fa;
       EvRequires2sa]
      = [] ++ before
        ++ EvOpenSession
             (try_args "cn" "user@example.com" None None true pw)
        :: after
    ∧ count is_open after = 0%nat.
Proof.
  apply (X10_authenticate_returns_the_last_opened_session Scripted.env
           "cn" "user@example.com" None false None true 2%nat PyNone
           (Scripted.start Scripted.no_stored_password_once)
           Scripted.plain
           (mkSt Scripted.quiet
              [EvLog DEBUG "Authenticating...";
               EvOpenSession
                 (try_args "cn" "user@example.com" None None true PyNone);
               EvPrompt "iCloud Password" true;
               EvOpenSession (except_args "user@example.com" None None true
                                "hunter2");
               EvOpenSession
                 (try_args "cn" "user@example.com" None None true
                    (PyStr "hunter2"));
               EvRequires2fa;
               EvRequires2sa])).
  reflexivity.
Defined.

(** X7 where the first of two devices is chosen and the code accepted. *)
Lemma X7_witness :
  ∃ delta : list Event,
    trace (request_2sa Scripted.env
             (Scripted.legacy_with [Scripted.iphone; Scripted.sms])
             icloudpd_logger
             (Scripted.start (Scripted.choose 0 true true))).2
    = [] ++ EvTrustedDevices :: delta
    ∧ (count is_send delta ≤ 1)%nat
    ∧ (count is_text_prompt delta ≤ 1)%nat
    ∧ count is_validation delta = count is_text_prompt delta
    ∧ count is_strong_flow delta = 0%nat
    ∧ count (λ e, match e with EvTrustedDevices => true | _ => false end)
        delta = 0%nat.
Proof.
  apply (X7_request_2sa_does_each_step_at_most_once Scripted.env
           (Scripted.legacy_with [Scripted.iphone; Scripted.sms])
           icloudpd_logger (Scripted.start (Scripted.choose 0 true true))).
Defined.
